(** * notes_maker: the content pipeline of the notes summarizer server

    A shallow embedding of [src/server/notes_maker.py]: the text
    primitives of Python's [str] that the pipeline uses, the extractor
    [_extract_url], the outliner [_outline_from_markdown], the summarizer
    [_summarize_markdown] and the renderers [summarize_url] and
    [batch_summarize], followed by the properties of the specification.

    A Python [str] is a sequence of Unicode code points; it is modelled as
    a list of code points ([N]), so that slices such as [[:80]] count
    characters as Python does and the ellipsis U+2026 is one character. *)

From Stdlib Require Import Ascii String.
From Stdlib Require Import List NArith ZArith Bool Lia.
From Stdlib Require Decimal.
Import ListNotations.

Set Implicit Arguments.

(* ------------------------------------------------------------------ *)
(** ** Python strings *)

Module PyStr.

Definition char : Type := N.
Definition str : Type := list char.

Local Open Scope N_scope.

(** A literal of ASCII characters, as written in the source. *)
Fixpoint lit (s : string) : str :=
  match s with
  | EmptyString => []
  | String a t => N_of_ascii a :: lit t
  end.

Definition NL : char := 10.
Definition ELLIPSIS : char := 8230.   (* U+2026, the one-character "…" *)
Definition EM_DASH : char := 8212.    (* U+2014, "—" *)

Definition str_eq_dec : forall a b : str, {a = b} + {a <> b} :=
  list_eq_dec N.eq_dec.

(** Truth value of a string: [if s:] holds for the non-empty ones. *)
Definition truthy (s : str) : bool :=
  match s with [] => false | _ :: _ => true end.

(** [str.isspace] on one character: the code points CPython's
    [Py_UNICODE_ISSPACE] accepts; [str.strip()] and [str.split()] use it. *)
Definition isspace (c : char) : bool :=
  ((9 <=? c) && (c <=? 13)) || ((28 <=? c) && (c <=? 32))
  || (c =? 133) || (c =? 160) || (c =? 5760)
  || ((8192 <=? c) && (c <=? 8202))
  || (c =? 8232) || (c =? 8233) || (c =? 8239) || (c =? 8287)
  || (c =? 12288).

(** The line boundaries of [str.splitlines]. *)
Definition islinebreak (c : char) : bool :=
  ((10 <=? c) && (c <=? 13)) || ((28 <=? c) && (c <=? 30))
  || (c =? 133) || (c =? 8232) || (c =? 8233).

(** [c in chars], for the [strip(chars)] family. *)
Definition char_in (chars : str) (c : char) : bool :=
  existsb (N.eqb c) chars.

Fixpoint lstrip_by (p : char -> bool) (s : str) : str :=
  match s with
  | [] => []
  | c :: t => if p c then lstrip_by p t else s
  end.

Definition rstrip_by (p : char -> bool) (s : str) : str :=
  rev (lstrip_by p (rev s)).

Definition strip_by (p : char -> bool) (s : str) : str :=
  rstrip_by p (lstrip_by p s).

(** [s.strip()] *)
Definition strip (s : str) : str := strip_by isspace s.
(** [s.strip(chars)] *)
Definition strip_chars (chars s : str) : str := strip_by (char_in chars) s.
(** [s.lstrip(chars)] *)
Definition lstrip_chars (chars s : str) : str := lstrip_by (char_in chars) s.

(** [s.startswith(pre)] *)
Fixpoint startswith (s pre : str) : bool :=
  match pre, s with
  | [], _ => true
  | _ :: _, [] => false
  | p :: pt, c :: t => (p =? c) && startswith t pt
  end.

(** [sep.join(l)] *)
Fixpoint join (sep : str) (l : list str) : str :=
  match l with
  | [] => []
  | x :: t => match t with
              | [] => x
              | _ :: _ => x ++ sep ++ join sep t
              end
  end.

(** [s.split(sep)] for a non-empty [sep]: the pieces between the
    non-overlapping occurrences of [sep], found from the left.  [skip]
    counts the characters of an occurrence still to be consumed and [cur]
    is the piece being read. *)
Fixpoint split_aux (sep : str) (skip : nat) (cur : str) (s : str) : list str :=
  match s with
  | [] => [cur]
  | c :: t =>
      match skip with
      | S k => split_aux sep k cur t
      | O => if startswith s sep
             then cur :: split_aux sep (length sep - 1) [] t
             else split_aux sep 0 (cur ++ [c]) t
      end
  end.

Definition split (s sep : str) : list str := split_aux sep 0 [] s.

(** [s.split()]: the maximal runs of non-space characters. *)
Fixpoint split_ws_aux (cur : str) (s : str) : list str :=
  match s with
  | [] => match cur with [] => [] | _ :: _ => [cur] end
  | c :: t =>
      if isspace c
      then match cur with
           | [] => split_ws_aux [] t
           | _ :: _ => cur :: split_ws_aux [] t
           end
      else split_ws_aux (cur ++ [c]) t
  end.

Definition split_ws (s : str) : list str := split_ws_aux [] s.

(** [s.splitlines()]: a line ends at a line boundary, ["\r\n"] counts as
    one boundary, and no empty last line is produced. *)
Fixpoint splitlines_aux (cur : str) (s : str) : list str :=
  match s with
  | [] => match cur with [] => [] | _ :: _ => [cur] end
  | c :: t =>
      if islinebreak c
      then cur :: match t with
                  | c' :: t' =>
                      if (c =? 13) && (c' =? 10)
                      then splitlines_aux [] t'
                      else splitlines_aux [] t
                  | [] => splitlines_aux [] t
                  end
      else splitlines_aux (cur ++ [c]) t
  end.

Definition splitlines (s : str) : list str := splitlines_aux [] s.

(** Decimal rendering of an integer, as an f-string does for an [int]. *)
Fixpoint uint_digits (d : Decimal.uint) : str :=
  match d with
  | Decimal.Nil => []
  | Decimal.D0 d => 48 :: uint_digits d
  | Decimal.D1 d => 49 :: uint_digits d
  | Decimal.D2 d => 50 :: uint_digits d
  | Decimal.D3 d => 51 :: uint_digits d
  | Decimal.D4 d => 52 :: uint_digits d
  | Decimal.D5 d => 53 :: uint_digits d
  | Decimal.D6 d => 54 :: uint_digits d
  | Decimal.D7 d => 55 :: uint_digits d
  | Decimal.D8 d => 56 :: uint_digits d
  | Decimal.D9 d => 57 :: uint_digits d
  end.

Definition str_of_nat (n : nat) : str := uint_digits (Nat.to_uint n).
Definition str_of_N (n : N) : str := uint_digits (N.to_uint n).

(** [sub in s] *)
Fixpoint contains (s sub : str) : bool :=
  startswith s sub ||
  match s with
  | [] => false
  | _ :: t => contains t sub
  end.

End PyStr.

Import PyStr.

(* ------------------------------------------------------------------ *)
(** ** The pipeline of [notes_maker.py] *)

Module NotesMaker.

(** *** Data model *)

(** [mcp.types.INVALID_PARAMS] and [mcp.types.INTERNAL_ERROR], the
    JSON-RPC 2.0 error codes. *)
Definition INVALID_PARAMS : Z := (-32602)%Z.
Definition INTERNAL_ERROR : Z := (-32603)%Z.

(** [ErrorData], the payload of the [McpError] the extractor raises;
    [str(McpError(e))] is [e.message]. *)
Record ErrorData : Type := mkErrorData {
  code : Z;
  message : str
}.

(** An exception as the pipeline sees it: the [McpError] it raises itself,
    or any other exception, of which only [str(exc)] is ever read. *)
Inductive PyException : Type :=
| McpError (error : ErrorData)
| OtherException (text : str).

(** [str(exc)] *)
Definition exception_str (exc : PyException) : str :=
  match exc with
  | McpError error => message error
  | OtherException text => text
  end.

Record NotesMeta : Type := mkNotesMeta {
  title : option str;
  byline : option str;
  published_at : option str;
  canonical_url : option str;
  reading_time_minutes : option N
}.

Record FetchResult : Type := mkFetchResult {
  meta : NotesMeta;
  markdown : str;
  links : list str
}.

Inductive Tier : Type := short | medium | long.

(** *** The collaborators *)

(** What [client.get] hands back: the response fields the extractor
    reads.  [resp_content_type] is the ["content-type"] header when set and
    [resp_url] is [str(resp.url)], the URL after redirects. *)
Record Response : Type := mkResponse {
  status_code : N;
  resp_content_type : option str;
  resp_url : str;
  resp_text : str
}.

(** [client.get] raises an [httpx.HTTPError], of which the extractor keeps
    [repr(e)], or raises an exception that is no [httpx.HTTPError] (an
    [httpx.InvalidURL], say), or returns a response. *)
Inductive GetOutcome : Type :=
| RaisesHTTPError (repr_e : str)
| RaisesOther (text : str)
| Returns (resp : Response).

(** The outcome of a call into a library that the pipeline does not guard:
    an exception, with its [str(exc)], or the value returned. *)
Inductive Call (A : Type) : Type :=
| Raise (text : str)
| Return (a : A).

Arguments Raise {A} text.
Arguments Return {A} a.

(** The dictionary of [simple_json_from_html_string], by the keys read. *)
Record SimpleJson : Type := mkSimpleJson {
  sj_title : option str;
  sj_byline : option str;
  sj_content : option str;
  sj_date_published : option str
}.

(** The value of an attribute of a BeautifulSoup tag: a string, or a list
    for the multi-valued attributes. *)
Inductive AttrValue : Type :=
| AttrStr (s : str)
| AttrList (l : list str).

(** An element of [soup.find_all("a", href=True)] with its [href]. *)
Inductive PageElement : Type :=
| Bs4Tag (href : AttrValue)
| NotATag.

(** The external libraries the pipeline calls.  The readability engine and
    the markdown converter may raise; the engine returns [None] for a falsy
    result.  [find_all_a_href] gives [None] when importing, parsing or
    scanning raises, which the extractor catches. *)
Record Collaborators : Type := mkCollaborators {
  client_get : str -> GetOutcome;
  simple_json_from_html_string : str -> Call (option SimpleJson);
  markdownify : str -> Call str;
  find_all_a_href : str -> option (list PageElement)
}.

(** *** Exceptions that propagate *)

(** An exception of a library call propagates as it is. *)
Definition propagate (A : Type) (c : Call A) : PyException + A :=
  match c with
  | Raise text => inl (OtherException text)
  | Return a => inr a
  end.

Definition bind (A B : Type) (c : PyException + A)
  (k : A -> PyException + B) : PyException + B :=
  match c with
  | inl exc => inl exc
  | inr a => k a
  end.

Notation "x <- c ;; k" := (bind c (fun x => k))
  (at level 61, c at next level, right associativity).

(** *** Truth values and [or] *)

Definition opt_truthy (o : option str) : bool :=
  match o with
  | Some s => truthy s
  | None => false
  end.

(** [o or None] *)
Definition or_None (o : option str) : option str :=
  if opt_truthy o then o else None.

(** [o or d] *)
Definition or_default (o : option str) (d : str) : str :=
  match o with
  | Some s => if truthy s then s else d
  | None => d
  end.

(** [enumerate(l, start)] *)
Definition enumerate (A : Type) (start : nat) (l : list A) : list (nat * A) :=
  combine (seq start (List.length l)) l.

(** *** extract_content_from_html *)

Definition ERROR_SENTINEL : str :=
  lit "<error>Page failed to be simplified from HTML</error>".

Definition extract_content_from_html (E : Collaborators) (html : str)
  : PyException + str :=
  ret <- propagate (simple_json_from_html_string E html) ;;
  match ret with
  | None => inr ERROR_SENTINEL
  | Some d =>
      match sj_content d with
      | None => inr ERROR_SENTINEL
      | Some c => if truthy c then propagate (markdownify E c)
                  else inr ERROR_SENTINEL
      end
  end.

(** *** _extract_url *)

(** [list(dict.fromkeys(l))]: the keys of a dictionary in insertion
    order; inserting a key that is present leaves the order alone. *)
Definition dict_insert (d : list str) (k : str) : list str :=
  if in_dec str_eq_dec k d then d else d ++ [k].

Definition dict_fromkeys (l : list str) : list str :=
  fold_left dict_insert l [].

(** The body of the loop over the anchors. *)
Definition collect_href (links : list str) (a : PageElement) : list str :=
  match a with
  | Bs4Tag (AttrStr href) =>
      if startswith href (lit "http") then links ++ [href] else links
  | Bs4Tag (AttrList _) => links
  | NotATag => links
  end.

Definition harvest_links (E : Collaborators) (html : str) : list str :=
  match find_all_a_href E html with
  | Some anchors => dict_fromkeys (fold_left collect_href anchors [])
  | None => []
  end.

(** [round(w / d)] for non-negative integers and [d > 0]: Python divides
    in floating point and rounds halves to the even neighbour.  The
    quotient is taken exactly, which is what the floating-point division
    gives for every word count a string in memory can have. *)
Definition round_div (w d : N) : N :=
  let q := (w / d)%N in
  match (2 * (w mod d) ?= d)%N with
  | Lt => q
  | Eq => if N.even q then q else (q + 1)%N
  | Gt => (q + 1)%N
  end.

Definition word_count (md : str) : N := N.of_nat (List.length (split_ws md)).

Definition reading_time (md : str) : N :=
  let words := N.max 1 (word_count md) in
  N.max 1 (round_div words 200).

(** The markdown body: the conversion of the main content when the
    engine found some, else what [extract_content_from_html] makes of the
    page. *)
Definition markdown_body (E : Collaborators) (html : str)
  (content_html : option str) : PyException + str :=
  match content_html with
  | Some c => if truthy c then propagate (markdownify E c)
              else extract_content_from_html E html
  | None => extract_content_from_html E html
  end.

Definition _extract_url (E : Collaborators) (url : str)
  : PyException + FetchResult :=
  match client_get E url with
  | RaisesHTTPError e =>
      inl (McpError
             (mkErrorData INTERNAL_ERROR
                (lit "Failed to fetch " ++ url ++ lit ": " ++ e)))
  | RaisesOther text => inl (OtherException text)
  | Returns resp =>
      if (400 <=? status_code resp)%N
      then inl (McpError
                  (mkErrorData INTERNAL_ERROR
                     (lit "Failed to fetch " ++ url ++ lit " - status "
                      ++ str_of_N (status_code resp))))
      else
        let content_type :=
          match resp_content_type resp with Some v => v | None => [] end in
        if negb (contains content_type (lit "text/html"))
        then inl (McpError
                    (mkErrorData INVALID_PARAMS
                       (lit "Unsupported content-type: " ++ content_type)))
        else
          let html := resp_text resp in
          sj <- propagate (simple_json_from_html_string E html) ;;
          let title := match sj with Some d => sj_title d | None => None end in
          let byline := match sj with Some d => sj_byline d | None => None end in
          let content_html :=
            match sj with Some d => sj_content d | None => None end in
          let published :=
            match sj with Some d => sj_date_published d | None => None end in
          md <- markdown_body E html content_html ;;
          let links := harvest_links E html in
          inr (mkFetchResult
                 (mkNotesMeta title byline (or_None published)
                    (Some (resp_url resp)) (Some (reading_time md)))
                 md links)
  end.

(** *** _outline_from_markdown *)

Definition outline_heading_step (outline : list str) (line : str) : list str :=
  if startswith line (lit "#") then outline ++ [strip line] else outline.

Definition section_entry (i : nat) (p : str) : str :=
  let first := firstn 80 (hd [] (split p (lit ". "))) in
  lit "- Section " ++ str_of_nat i ++ lit ": " ++ first ++ [ELLIPSIS].

Definition outline_section_step (outline : list str) (ip : nat * str)
  : list str :=
  outline ++ [section_entry (fst ip) (snd ip)].

Definition paragraphs (md : str) : list str :=
  map strip (filter (fun p => truthy (strip p)) (split md [NL; NL])).

Definition _outline_from_markdown (md : str) : list str :=
  let outline := fold_left outline_heading_step (splitlines md) [] in
  match outline with
  | [] =>
      fold_left outline_section_step
        (enumerate 1 (firstn 10 (paragraphs md))) outline
  | _ :: _ => outline
  end.

(** *** _summarize_markdown *)

Definition tier_cap (length : Tier) : nat :=
  match length with
  | short => 7
  | medium => 15
  | long => 30
  end.

Record WalkState : Type := mkWalkState {
  current_section : option str;
  bullets : list str
}.

(** One iteration of the loop over the lines. *)
Definition walk_step (st : WalkState) (line : str) : WalkState :=
  if startswith line (lit "#")
  then mkWalkState (Some (lstrip_chars (lit "# ") line)) (bullets st)
  else
    match current_section st with
    | Some section =>
        if truthy section && (List.length (bullets st) <? 20)
        then
          let sent := hd [] (split line (lit ". ")) in
          if truthy sent
          then mkWalkState None
                 (bullets st ++
                    [section ++ lit ": " ++ strip_chars (lit ". ") sent
                     ++ lit "."])
          else st
        else st
    | None => st
    end.

Definition stripped_lines (md : str) : list str :=
  map strip (filter (fun l => truthy (strip l)) (splitlines md)).

Definition heading_walk (lines : list str) : WalkState :=
  fold_left walk_step lines (mkWalkState None []).

Definition fallback_bullets (lines : list str) : list str :=
  let text := join (lit " ") lines in
  let sentences := split text (lit ". ") in
  map (fun s => strip s ++ lit ".") (filter truthy (firstn 7 sentences)).

(** The bullets before the cap of the tier: those of the walk or, when
    it gave none, those of the fallback. *)
Definition uncapped_bullets (lines : list str) : list str :=
  match bullets (heading_walk lines) with
  | [] => fallback_bullets lines
  | b :: bs => b :: bs
  end.

Definition render_bullets (bs : list str) : str :=
  join [NL] (map (fun b => lit "- " ++ b) bs).

Definition _summarize_markdown (md : str) (length : Tier) : str * list str :=
  let lines := stripped_lines md in
  let bs := uncapped_bullets lines in
  let n := tier_cap length in
  let bs := firstn n bs in
  (render_bullets bs, bs).

(** *** summarize_url *)

Definition citations_of (res : FetchResult) (bs : list str) : list str :=
  flat_map
    (fun i =>
       match canonical_url (meta res) with
       | Some u => if truthy u
                   then [lit "[" ++ str_of_nat (i + 1) ++ lit "] " ++ u]
                   else []
       | None => []
       end)
    (seq 0 (Nat.min (List.length bs) 5)).

Definition summarize_url (E : Collaborators) (url : str) (length : Tier)
  : PyException + str :=
  match _extract_url E url with
  | inl e => inl e
  | inr res =>
      let '(summary_md, bs) := _summarize_markdown (markdown res) length in
      let cite_md := join [NL] (citations_of res bs) in
      let title := or_default (title (meta res)) (lit "Summary") in
      inr (lit "prepare well-structured, easy-to-understand summary from the content below. "
           ++ lit "## " ++ title ++ [NL; NL]
           ++ lit "## Key Points" ++ [NL; NL] ++ summary_md ++ [NL; NL]
           ++ lit "## Citations" ++ [NL; NL] ++ cite_md ++ [NL; NL])
  end.

(** *** batch_summarize *)

Definition error_section (idx : nat) (r : PyException) : str :=
  lit "## Source " ++ str_of_nat idx ++ [NL; NL] ++ lit "- Error: "
  ++ exception_str r.

Definition source_title (idx : nat) (result : FetchResult) : str :=
  or_default (title (meta result)) (lit "Source " ++ str_of_nat idx).

Definition summary_section (length : Tier) (idx : nat) (result : FetchResult)
  : str :=
  lit "## " ++ source_title idx result ++ [NL; NL]
  ++ fst (_summarize_markdown (markdown result) length).

Definition bibliography_line (idx : nat) (result : FetchResult) (u : str)
  : str :=
  lit "[" ++ str_of_nat idx ++ lit "] " ++ source_title idx result
  ++ lit " " ++ [EM_DASH] ++ lit " " ++ u.

(** One iteration of the loop over [enumerate(results, 1)]; the state is
    the pair of [sections] and [bibliography]. *)
Definition batch_step (length : Tier) (st : list str * list str)
  (ir : nat * (PyException + FetchResult)) : list str * list str :=
  let '(sections, bibliography) := st in
  let '(idx, r) := ir in
  match r with
  | inl e => (sections ++ [error_section idx e], bibliography)
  | inr result =>
      (sections ++ [summary_section length idx result],
       match canonical_url (meta result) with
       | Some u => if truthy u
                   then bibliography ++ [bibliography_line idx result u]
                   else bibliography
       | None => bibliography
       end)
  end.

Definition batch_collect (results : list (PyException + FetchResult))
  (length : Tier) : list str * list str :=
  fold_left (batch_step length) (enumerate 1 results) ([], []).

Definition PREFACE : str :=
  lit "Combine the following source summaries into a unified, easy-to-understand study guide. "
  ++ lit "Avoid duplication, align terminology, and add brief transitions when needed.".

Definition render_study_guide (sections bibliography : list str) : str :=
  PREFACE ++ [NL; NL] ++ lit "# Study Guide" ++ [NL; NL]
  ++ join [NL; NL] sections
  ++ match bibliography with
     | [] => []
     | _ :: _ => [NL; NL] ++ lit "## References" ++ [NL; NL]
                 ++ join [NL] bibliography
     end.

(** [asyncio.gather] with [return_exceptions=True] returns the outcome of
    every task in the order of the tasks, whichever finishes first. *)
Definition gather (E : Collaborators) (urls : list str)
  : list (PyException + FetchResult) :=
  map (_extract_url E) urls.

Definition batch_summarize (E : Collaborators) (urls : list str)
  (length : Tier) : str :=
  let '(sections, bibliography) := batch_collect (gather E urls) length in
  render_study_guide sections bibliography.

(** *** fetch_notes *)

(** [f"<prefix>{o}" if o else None] *)
Definition opt_line (prefix : str) (o : option str) : option str :=
  match o with
  | Some s => if truthy s then Some (prefix ++ s) else None
  | None => None
  end.

(** The list [header] of [fetch_notes], absent lines being [None]. *)
Definition notes_header (meta : NotesMeta) : list (option str) :=
  [ Some match opt_line (lit "# ") (title meta) with
         | Some l => l
         | None => lit "# Page Notes"
         end;
    opt_line (lit "By: ") (byline meta);
    opt_line (lit "Published: ") (published_at meta);
    opt_line (lit "Canonical: ") (canonical_url meta);
    match reading_time_minutes meta with
    | Some n => if (n =? 0)%N then None
                else Some (lit "Estimated reading time: " ++ str_of_N n
                           ++ lit " min")
    | None => None
    end;
    Some [] ].

(** [[h for h in header if h]] *)
Definition truthy_items (header : list (option str)) : list str :=
  flat_map (fun h => if opt_truthy h
                     then match h with Some s => [s] | None => [] end
                     else [])
    header.

Definition render_links (ls : list str) : str :=
  join [NL] (map (fun l => lit "- " ++ l) (firstn 20 ls)).

Definition fetch_notes (E : Collaborators) (url : str)
  : PyException + str :=
  match _extract_url E url with
  | inl e => inl e
  | inr res =>
      let header_md := join [NL] (truthy_items (notes_header (meta res))) in
      let links_md := render_links (links res) in
      inr (lit "Prepare the well structured notes that are easy to understandable from the below content."
           ++ lit "Ensure concepts are clear and understandable, explain each concepts with ease."
           ++ [NL; NL] ++ header_md ++ [NL; NL]
           ++ lit "## Extracted Content" ++ [NL; NL] ++ markdown res
           ++ [NL; NL]
           ++ lit "## Links" ++ [NL; NL] ++ links_md)
  end.

End NotesMaker.

Import NotesMaker.

(* ------------------------------------------------------------------ *)
(** ** Auxiliary definitions used in the statements *)

(** What one outcome of the batch contributes to the sections and to the
    bibliography. *)
Definition section_of (length : Tier) (ir : nat * (PyException + FetchResult))
  : str :=
  match snd ir with
  | inl e => error_section (fst ir) e
  | inr result => summary_section length (fst ir) result
  end.

Definition bibliography_of (ir : nat * (PyException + FetchResult))
  : list str :=
  match snd ir with
  | inl _ => []
  | inr result =>
      match canonical_url (meta result) with
      | Some u => if truthy u then [bibliography_line (fst ir) result u]
                  else []
      | None => []
      end
  end.

(** The three errors [_extract_url] raises, under the names the
    specification gives them. *)
Definition FetchError (url cause : str) : ErrorData :=
  mkErrorData INTERNAL_ERROR
    (lit "Failed to fetch " ++ url ++ lit ": " ++ cause).

Definition HttpStatusError (url : str) (status : N) : ErrorData :=
  mkErrorData INTERNAL_ERROR
    (lit "Failed to fetch " ++ url ++ lit " - status " ++ str_of_N status).

Definition UnsupportedContentTypeError (content_type : str) : ErrorData :=
  mkErrorData INVALID_PARAMS (lit "Unsupported content-type: " ++ content_type).

(** The value of [resp.headers.get("content-type", "")]. *)
Definition content_type_of (resp : Response) : str :=
  match resp_content_type resp with Some v => v | None => [] end.

(** The text of [s] before the first occurrence of [sep]; all of [s] when
    there is none. *)
Fixpoint before_first (sep s : str) : str :=
  match s with
  | [] => []
  | c :: t => if startswith s sep then [] else c :: before_first sep t
  end.

(** The main content the readability engine finds in a page. *)
Definition main_content (E : Collaborators) (html : str) : option str :=
  match simple_json_from_html_string E html with
  | Return (Some d) => sj_content d
  | Return None => None
  | Raise _ => None
  end.

(** The hrefs the loop over the anchors collects, before [dict.fromkeys]. *)
Definition collected_hrefs (anchors : list PageElement) : list str :=
  fold_left collect_href anchors [].


(** A page served as HTML in which the engine finds nothing, with the
    identity for markdown converter, and the anchors [anchors]. *)
Definition plain_page_response : Response :=
  mkResponse 200 (Some (lit "text/html; charset=utf-8")) (lit "http://a/")
    (lit "<p>hi</p>").

Definition page_world (anchors : list PageElement) : Collaborators :=
  mkCollaborators (fun _ => Returns plain_page_response)
    (fun _ => Return None) (fun html => Return html)
    (fun _ => Some anchors).

Definition plain_page_world : Collaborators := page_world [].

Definition plain_page_result : FetchResult :=
  mkFetchResult
    (mkNotesMeta None None None (Some (lit "http://a/")) (Some 1%N))
    ERROR_SENTINEL [].

(** What one anchor adds to the links. *)
Definition kept_href (a : PageElement) : list str :=
  match a with
  | Bs4Tag (AttrStr href) =>
      if startswith href (lit "http") then [href] else []
  | Bs4Tag (AttrList _) => []
  | NotATag => []
  end.

(** An anchor with the [href] given. *)
Definition anchor (href : str) : PageElement := Bs4Tag (AttrStr href).

(** A page with four anchors, three of them to the same absolute URL. *)
Definition linked_page_anchors : list PageElement :=
  [anchor (lit "http://b/"); anchor (lit "/about"); anchor (lit "http://b/");
   anchor (lit "http://b/")].

Definition linked_page_result : FetchResult :=
  mkFetchResult
    (mkNotesMeta None None None (Some (lit "http://a/")) (Some 1%N))
    ERROR_SENTINEL [lit "http://b/"].



(** A page in which the engine finds an article with a title, no byline
    and an empty publication date; scanning its anchors raises. *)
Definition article_json : SimpleJson :=
  mkSimpleJson (Some (lit "T")) None (Some (lit "<h1>T</h1>")) (Some []).

Definition article_world : Collaborators :=
  mkCollaborators (fun _ => Returns plain_page_response)
    (fun _ => Return (Some article_json)) (fun html => Return html)
    (fun _ => None).

Definition article_result : FetchResult :=
  mkFetchResult
    (mkNotesMeta (Some (lit "T")) None None (Some (lit "http://a/"))
       (Some 1%N))
    (lit "<h1>T</h1>") [].

(** A section label as [lstrip("# ")] leaves it: empty, or starting with
    neither ["#"] nor a space. *)
Definition label_ok (o : option str) : Prop :=
  match o with
  | Some (c :: _) => char_in (lit "# ") c = false
  | _ => True
  end.

(** A bullet of the heading walk: it starts with the first character of
    its label and ends with a full stop. *)
Definition labelled_bullet (b : str) : Prop :=
  exists c rest body,
    b = c :: rest /\ char_in (lit "# ") c = false /\ b = body ++ lit ".".

(** Whether the walk holds a section label, as a number. *)
Definition pending (st : WalkState) : nat :=
  match current_section st with
  | Some _ => 1
  | None => 0
  end.

(** A string of white space only. *)
Definition all_space (s : str) : bool := forallb isspace s.

(** A server that answers every request with status 404. *)
Definition not_found_response : Response :=
  mkResponse 404 (Some (lit "text/html")) (lit "http://a/missing") [].

Definition not_found_world : Collaborators :=
  mkCollaborators (fun _ => Returns not_found_response)
    (fun _ => Return None) (fun html => Return html) (fun _ => None).

(** The line of an optional header field, when there is one. *)
Definition line_of (o : option str) : list str :=
  match o with
  | Some l => [l]
  | None => []
  end.

(** A server that answers without a content-type header. *)
Definition headerless_response : Response :=
  mkResponse 200 None (lit "http://a/") (lit "<p>hi</p>").

Definition headerless_world : Collaborators :=
  mkCollaborators (fun _ => Returns headerless_response)
    (fun _ => Return None) (fun html => Return html) (fun _ => None).

(** A client that refuses the URL with an exception that is no
    [httpx.HTTPError]. *)
Definition invalid_url_world : Collaborators :=
  mkCollaborators (fun _ => RaisesOther (lit "Invalid port"))
    (fun _ => Return None) (fun html => Return html) (fun _ => None).

(** An HTML page on which the readability engine raises. *)
Definition index_error_world : Collaborators :=
  mkCollaborators (fun _ => Returns plain_page_response)
    (fun _ => Raise (lit "list index out of range"))
    (fun html => Return html) (fun _ => None).

(** A JSON document whose content type mentions ["text/html"] in a
    parameter. *)
Definition json_profile_response : Response :=
  mkResponse 200 (Some (lit "application/json; profile=text/html"))
    (lit "http://a/") (lit "{}").

Definition json_profile_world : Collaborators :=
  mkCollaborators (fun _ => Returns json_profile_response)
    (fun _ => Return None) (fun html => Return html) (fun _ => None).

Definition json_profile_result : FetchResult :=
  mkFetchResult
    (mkNotesMeta None None None (Some (lit "http://a/")) (Some 1%N))
    ERROR_SENTINEL [].

(** The lines the outliner takes for headings. *)
Definition starts_with_hash (line : str) : bool := startswith line (lit "#").

(* ------------------------------------------------------------------ *)
(** ** Definitions that follow the words of the specification

    They are compared below with the definitions taken from the source. *)

Module Spec.

(** A heading line in the words of the specification: a line whose first
    non-space character is the heading marker. *)
Definition heading_line (line : str) : bool :=
  startswith (lstrip_by isspace line) (lit "#").

(** The outline the specification describes for a document with headings:
    its heading lines, trimmed, in document order. *)
Definition heading_outline (md : str) : list str :=
  map strip (filter heading_line (splitlines md)).


(** [max(1, round(wordCount / 200))] *)
Definition reading_time_minutes (wordCount : N) : N :=
  N.max 1 (round_div wordCount 200).

(** The synthesized entry as the specification writes it. *)
Definition section_entry (i : nat) (snippet : str) : str :=
  lit "Section " ++ str_of_nat i ++ lit ": " ++ snippet ++ [ELLIPSIS].

(** The markdown body the specification describes when the readability
    engine gives no main content: the conversion of the full page, or the
    sentinel when that conversion is empty. *)
Definition fallback_markdown (E : Collaborators) (html : str)
  : PyException + str :=
  md <- propagate (markdownify E html) ;;
  inr (if truthy md then md else ERROR_SENTINEL).

(** ASCII lower case of a character. *)
Definition lower (c : char) : char :=
  if ((65 <=? c) && (c <=? 90))%N then (c + 32)%N else c.

(** The media type of a content-type header: the text before the first
    [";"], stripped, in lower case. *)
Definition media_type (content_type : str) : str :=
  map lower (strip (hd [] (split content_type (lit ";")))).

(** A content type that indicates HTML. *)
Definition indicates_html (content_type : str) : bool :=
  if str_eq_dec (media_type content_type) (lit "text/html") then true
  else if str_eq_dec (media_type content_type) (lit "application/xhtml+xml")
       then true
       else false.

End Spec.

(* ------------------------------------------------------------------ *)
(** ** The string primitives on small inputs *)

Example splitlines_ex :
  splitlines (lit "a" ++ [13; 10]%N ++ lit "b" ++ [NL; NL] ++ lit "c" ++ [NL])
  = [lit "a"; lit "b"; []; lit "c"].
Proof. reflexivity. Qed.

Example split_ex :
  split (lit "One. Two. ") (lit ". ") = [lit "One"; lit "Two"; []].
Proof. reflexivity. Qed.

Example split_ws_ex :
  split_ws (lit "  a  bc d ") = [lit "a"; lit "bc"; lit "d"].
Proof. reflexivity. Qed.

Example strip_ex : strip (lit "  # T  ") = lit "# T".
Proof. reflexivity. Qed.

(* ------------------------------------------------------------------ *)
(** ** Lists, loops and enumerations *)

Section ListFacts.

Context {A B : Type}.

Lemma nth_error_enumerate (start : nat) (l : list A) (i : nat) :
  nth_error (enumerate start l) i
  = option_map (fun x => (start + i, x)) (nth_error l i).
Proof.
  unfold enumerate. revert start i.
  induction l as [|x l IH]; intros start i.
  - destruct i; reflexivity.
  - destruct i as [|i]; simpl.
    + now rewrite Nat.add_0_r.
    + rewrite IH. now rewrite Nat.add_succ_r.
Qed.

Lemma enumerate_length (start : nat) (l : list A) :
  List.length (enumerate start l) = List.length l.
Proof.
  unfold enumerate. rewrite length_combine, length_seq. apply Nat.min_id.
Qed.

Lemma enumerate_cons (start : nat) (x : A) (l : list A) :
  enumerate start (x :: l) = (start, x) :: enumerate (S start) l.
Proof. reflexivity. Qed.

Lemma flat_map_singleton (f : A -> B) (l : list A) :
  flat_map (fun x => [f x]) l = map f l.
Proof. induction l; simpl; congruence. Qed.

End ListFacts.

(* ------------------------------------------------------------------ *)
(** ** Batch orchestrator *)

Section Batch.

Variable length : Tier.

Lemma batch_loop (l : list (nat * (PyException + FetchResult)))
  (sections bibliography : list str) :
  fold_left (batch_step length) l (sections, bibliography)
  = (sections ++ map (section_of length) l, bibliography ++ flat_map bibliography_of l).
Proof.
  revert sections bibliography.
  induction l as [|[idx r] l IH]; intros sections bibliography; simpl.
  - now rewrite !app_nil_r.
  - destruct r as [e|result]; simpl; rewrite IH.
    + unfold section_of, bibliography_of; simpl.
      now rewrite <- app_assoc.
    + unfold section_of, bibliography_of; simpl.
      rewrite <- app_assoc; simpl.
      destruct (canonical_url (meta result)) as [u|]; [|reflexivity].
      destruct (truthy u); [|reflexivity].
      now rewrite <- app_assoc.
Qed.

Lemma batch_collect_eq (results : list (PyException + FetchResult)) :
  batch_collect results length
  = (map (section_of length) (enumerate 1 results),
     flat_map bibliography_of (enumerate 1 results)).
Proof. unfold batch_collect. now rewrite batch_loop. Qed.

End Batch.

Lemma batch_bibliography_by_url (E : Collaborators)
  (entry_at : nat -> str -> list str) (urls : list str) (start : nat) :
  (forall i url,
     entry_at i url = bibliography_of (i + 1, _extract_url E url)) ->
  flat_map bibliography_of (enumerate (S start) (gather E urls))
  = flat_map (fun iu => entry_at (fst iu) (snd iu)) (enumerate start urls).
Proof.
  intros Hentry. revert start.
  induction urls as [|url urls IH]; intros start; [reflexivity|].
  unfold gather. cbn [map]. rewrite !enumerate_cons. cbn [flat_map fst snd].
  rewrite Hentry, Nat.add_1_r. f_equal. apply IH.
Qed.

(** C1: the study guide of [batch_summarize] is the preface, the heading
    and one section per URL, in the order of the URLs, followed by the
    references when there are any.  The section at position [i] is the one
    of the [i]-th URL; an extraction that failed gives ["## Source i"]
    with the single bullet ["- Error: <failure>"] and adds nothing to the
    bibliography.  When every extraction fails the bibliography is empty
    and the study guide ends with its sections: no ["## References"] part
    is appended. *)
Theorem batch_summarize_sections (E : Collaborators) (urls : list str)
  (length : Tier) :
  let section_at := fun (i : nat) (url : str) =>
    match _extract_url E url with
    | inl exc =>
        lit "## Source " ++ str_of_nat (i + 1) ++ [NL; NL]
        ++ lit "- Error: " ++ exception_str exc
    | inr res =>
        lit "## "
        ++ or_default (title (meta res)) (lit "Source " ++ str_of_nat (i + 1))
        ++ [NL; NL] ++ fst (_summarize_markdown (markdown res) length)
    end in
  let entry_at := fun (i : nat) (url : str) =>
    match _extract_url E url with
    | inl _ => []
    | inr res =>
        match canonical_url (meta res) with
        | Some u =>
            if truthy u
            then [lit "[" ++ str_of_nat (i + 1) ++ lit "] "
                  ++ or_default (title (meta res))
                       (lit "Source " ++ str_of_nat (i + 1))
                  ++ lit " " ++ [EM_DASH] ++ lit " " ++ u]
            else []
        | None => []
        end
    end in
  exists sections bibliography,
    batch_summarize E urls length
    = PREFACE ++ [NL; NL] ++ lit "# Study Guide" ++ [NL; NL]
      ++ join [NL; NL] sections
      ++ match bibliography with
         | [] => []
         | _ :: _ => [NL; NL] ++ lit "## References" ++ [NL; NL]
                     ++ join [NL] bibliography
         end
    /\ List.length sections = List.length urls
    /\ (forall i url, nth_error urls i = Some url ->
          nth_error sections i = Some (section_at i url))
    /\ bibliography
       = flat_map (fun iu => entry_at (fst iu) (snd iu)) (enumerate 0 urls)
    /\ ((forall url, In url urls -> exists exc, _extract_url E url = inl exc)
        -> bibliography = []
           /\ batch_summarize E urls length
              = PREFACE ++ [NL; NL] ++ lit "# Study Guide" ++ [NL; NL]
                ++ join [NL; NL] sections).
Proof.
  intros section_at entry_at.
  exists (map (section_of length) (enumerate 1 (gather E urls))),
    (flat_map bibliography_of (enumerate 1 (gather E urls))).
  assert (Hout : batch_summarize E urls length
                 = render_study_guide
                     (map (section_of length) (enumerate 1 (gather E urls)))
                     (flat_map bibliography_of (enumerate 1 (gather E urls)))).
  { unfold batch_summarize. now rewrite batch_collect_eq. }
  assert (Hbib : flat_map bibliography_of (enumerate 1 (gather E urls))
                 = flat_map (fun iu => entry_at (fst iu) (snd iu))
                     (enumerate 0 urls)).
  { apply batch_bibliography_by_url.
    intros i url. unfold entry_at, bibliography_of. cbn [fst snd].
    destruct (_extract_url E url) as [exc|res]; reflexivity. }
  split; [exact Hout|]. split; [|split; [|split; [exact Hbib|]]].
  - rewrite length_map, enumerate_length. unfold gather. apply length_map.
  - intros i url Hi. rewrite nth_error_map, nth_error_enumerate.
    unfold gather. rewrite nth_error_map, Hi. cbn [option_map].
    unfold section_of, section_at. cbn [fst snd].
    rewrite (Nat.add_comm 1 i).
    destruct (_extract_url E url); reflexivity.
  - intros Hfail.
    assert (Hnil : flat_map bibliography_of (enumerate 1 (gather E urls)) = []).
    { rewrite Hbib. clear Hbib Hout. generalize 0.
      induction urls as [|url urls IH]; intros start; [reflexivity|].
      rewrite enumerate_cons. cbn [flat_map fst snd].
      destruct (Hfail url (or_introl eq_refl)) as [exc Hexc].
      unfold entry_at at 1. rewrite Hexc. cbn [app].
      apply IH. intros u Hu. apply Hfail. now right. }
    split; [exact Hnil|].
    rewrite Hout, Hnil. unfold render_study_guide.
    now rewrite !app_nil_r.
Qed.

(* ------------------------------------------------------------------ *)
(** ** Extractor: the three failures *)

Lemma markdown_body_raises (E : Collaborators) (html : str)
  (content_html : option str) (exc : PyException) :
  markdown_body E html content_html = inl exc ->
  exists text,
    exc = OtherException text
    /\ (simple_json_from_html_string E html = Raise text
        \/ exists c, markdownify E c = Raise text).
Proof.
  assert (Hconv : forall c,
            propagate (markdownify E c) = inl exc ->
            exists text,
              exc = OtherException text
              /\ (simple_json_from_html_string E html = Raise text
                  \/ exists c', markdownify E c' = Raise text)).
  { intros c H. destruct (markdownify E c) as [t|md] eqn:Hm;
      cbn [propagate] in H; [|discriminate].
    injection H as <-. exists t. split; [reflexivity|]. right. now exists c. }
  assert (Hext : extract_content_from_html E html = inl exc ->
            exists text,
              exc = OtherException text
              /\ (simple_json_from_html_string E html = Raise text
                  \/ exists c', markdownify E c' = Raise text)).
  { unfold extract_content_from_html.
    destruct (simple_json_from_html_string E html) as [t|ret];
      cbn [propagate bind]; intros H.
    - injection H as <-. exists t. split; [reflexivity|]. now left.
    - destruct ret as [d|]; [|discriminate].
      destruct (sj_content d) as [[|c0 c]|]; cbn [truthy] in H;
        try discriminate.
      now apply Hconv in H. }
  unfold markdown_body.
  destruct content_html as [[|c0 c]|]; cbn [truthy]; intros H;
    [now apply Hext|now apply Hconv in H|now apply Hext].
Qed.

(** C2, as the code has it: [_extract_url] raises three [McpError]s and no
    other.  A transport failure that is an [httpx.HTTPError] gives the
    error whose message carries the URL and the cause; a status of 400 or
    more gives the error whose message carries the status (404 reads
    ["... - status 404"]); a content type that does not contain
    ["text/html"] gives the error that carries the observed type, whatever
    the HTML collaborators are, so before any parsing.  The three errors
    differ from one another.  Any other failure is an exception of the
    client, of the readability engine or of the markdown converter, which
    propagates as it is. *)
Theorem extract_url_three_errors (E : Collaborators) (url : str) :
  (forall cause, client_get E url = RaisesHTTPError cause ->
     _extract_url E url = inl (McpError (FetchError url cause)))
  /\ (forall resp, client_get E url = Returns resp ->
        (400 <= status_code resp)%N ->
        _extract_url E url
        = inl (McpError (HttpStatusError url (status_code resp))))
  /\ (forall resp, client_get E url = Returns resp ->
        status_code resp = 404%N ->
        _extract_url E url
        = inl (McpError
                 (mkErrorData INTERNAL_ERROR
                    (lit "Failed to fetch " ++ url ++ lit " - status 404"))))
  /\ (forall resp, client_get E url = Returns resp ->
        (status_code resp < 400)%N ->
        contains (content_type_of resp) (lit "text/html") = false ->
        forall E' : Collaborators, client_get E' url = client_get E url ->
        _extract_url E' url
        = inl (McpError (UnsupportedContentTypeError (content_type_of resp))))
  /\ (forall err, _extract_url E url = inl (McpError err) ->
        (exists cause, client_get E url = RaisesHTTPError cause
                       /\ err = FetchError url cause)
        \/ (exists resp, client_get E url = Returns resp
                         /\ (400 <= status_code resp)%N
                         /\ err = HttpStatusError url (status_code resp))
        \/ (exists resp, client_get E url = Returns resp
                         /\ (status_code resp < 400)%N
                         /\ contains (content_type_of resp) (lit "text/html")
                            = false
                         /\ err = UnsupportedContentTypeError
                                    (content_type_of resp)))
  /\ (forall text, _extract_url E url = inl (OtherException text) ->
        client_get E url = RaisesOther text
        \/ (exists resp, client_get E url = Returns resp
                         /\ (status_code resp < 400)%N
                         /\ contains (content_type_of resp) (lit "text/html")
                            = true
                         /\ (simple_json_from_html_string E (resp_text resp)
                             = Raise text
                             \/ exists c, markdownify E c = Raise text)))
  /\ (forall cause status content_type,
        FetchError url cause <> HttpStatusError url status
        /\ FetchError url cause <> UnsupportedContentTypeError content_type
        /\ HttpStatusError url status
           <> UnsupportedContentTypeError content_type).
Proof.
  split; [|split; [|split; [|split; [|split; [|split]]]]].
  - intros cause H. unfold _extract_url. now rewrite H.
  - intros resp H Hs. unfold _extract_url. rewrite H.
    apply N.leb_le in Hs. now rewrite Hs.
  - intros resp H Hs. unfold _extract_url. rewrite H, Hs. reflexivity.
  - intros resp H Hs Hc E' HE'. unfold _extract_url. rewrite HE', H.
    apply N.leb_gt in Hs. rewrite Hs.
    fold (content_type_of resp). now rewrite Hc.
  - intros err H. unfold _extract_url in H.
    destruct (client_get E url) as [cause|text|resp] eqn:Hg.
    + left. exists cause. split; [reflexivity|]. now injection H as <-.
    + discriminate.
    + right. destruct (400 <=? status_code resp)%N eqn:Hs.
      * left. exists resp. apply N.leb_le in Hs.
        repeat split; auto. now injection H as <-.
      * right. exists resp. apply N.leb_gt in Hs.
        fold (content_type_of resp) in H.
        destruct (contains (content_type_of resp) (lit "text/html")) eqn:Hc;
          cbn [negb] in H.
        -- exfalso.
           destruct (simple_json_from_html_string E (resp_text resp))
             as [t|sj]; cbn [propagate bind] in H; [discriminate|].
           destruct (markdown_body E (resp_text resp)
                       match sj with
                       | Some d => sj_content d
                       | None => None
                       end) as [exc|md] eqn:Hmd;
             cbn [bind] in H; [|discriminate].
           apply markdown_body_raises in Hmd.
           destruct Hmd as [text [-> _]]. discriminate.
        -- repeat split; auto. now injection H as <-.
  - intros text H. unfold _extract_url in H.
    destruct (client_get E url) as [cause|text'|resp] eqn:Hg.
    + discriminate.
    + left. now injection H as ->.
    + right. exists resp. destruct (400 <=? status_code resp)%N eqn:Hs;
        [discriminate|].
      apply N.leb_gt in Hs. fold (content_type_of resp) in H.
      destruct (contains (content_type_of resp) (lit "text/html")) eqn:Hc;
        cbn [negb] in H; [|discriminate].
      split; [reflexivity|]. split; [exact Hs|]. split; [reflexivity|].
      destruct (simple_json_from_html_string E (resp_text resp))
        as [t|sj] eqn:Hsj; cbn [propagate bind] in H.
      * left. now injection H as ->.
      * right.
        destruct (markdown_body E (resp_text resp)
                    match sj with
                    | Some d => sj_content d
                    | None => None
                    end) as [exc|md] eqn:Hmd;
          cbn [bind] in H; [|discriminate].
        apply markdown_body_raises in Hmd.
        destruct Hmd as [text' [-> Hor]]. injection H as ->.
        destruct Hor as [Hr|Hc']; [congruence|exact Hc'].
  - intros cause status content_type. split; [|split].
    + unfold FetchError, HttpStatusError. intros H. injection H as H.
      apply app_inv_head in H. discriminate.
    + unfold FetchError, UnsupportedContentTypeError. intros H.
      discriminate.
    + unfold HttpStatusError, UnsupportedContentTypeError. intros H.
      discriminate.
Qed.

(** C2 as stated fails: an exception of the client that is no
    [httpx.HTTPError], and an exception of the readability engine, leave
    [_extract_url] as they are, outside the three errors; and a content
    type that does not indicate HTML but mentions ["text/html"] is
    accepted. *)
Lemma extract_url_other_failures :
  _extract_url invalid_url_world (lit "http://a:x")
  = inl (OtherException (lit "Invalid port"))
  /\ _extract_url index_error_world (lit "http://a")
     = inl (OtherException (lit "list index out of range"))
  /\ Spec.indicates_html (lit "application/json; profile=text/html") = false
  /\ _extract_url json_profile_world (lit "http://a")
     = inr json_profile_result.
Proof. repeat split. Qed.

(* ------------------------------------------------------------------ *)
(** ** Outliner *)

Lemma outline_heading_loop (l : list str) (acc : list str) :
  fold_left outline_heading_step l acc
  = acc ++ map strip (filter starts_with_hash l).
Proof.
  revert acc. induction l as [|line l IH]; intros acc; simpl.
  - now rewrite app_nil_r.
  - rewrite IH. unfold outline_heading_step, starts_with_hash.
    destruct (startswith line (lit "#")); simpl.
    + now rewrite <- app_assoc.
    + reflexivity.
Qed.

Lemma outline_section_loop (l : list (nat * str)) (acc : list str) :
  fold_left outline_section_step l acc
  = acc ++ map (fun ip => section_entry (fst ip) (snd ip)) l.
Proof.
  revert acc. induction l as [|ip l IH]; intros acc; simpl.
  - now rewrite app_nil_r.
  - rewrite IH. unfold outline_section_step. now rewrite <- app_assoc.
Qed.

Lemma filter_nil_existsb (A : Type) (p : A -> bool) (l : list A) :
  filter p l = [] <-> existsb p l = false.
Proof.
  induction l as [|x l IH]; simpl; [tauto|].
  destruct (p x); simpl; [split; discriminate|exact IH].
Qed.

Lemma startswith_app (s pre : str) :
  startswith s pre = true -> exists rest, s = pre ++ rest.
Proof.
  revert s. induction pre as [|p pre IH]; intros s H.
  - now exists s.
  - destruct s as [|c s]; simpl in H; [discriminate|].
    apply andb_prop in H. destruct H as [Hc Hs].
    apply N.eqb_eq in Hc. subst c.
    destruct (IH s Hs) as [rest ->]. now exists rest.
Qed.

Lemma split_aux_hd (sep cur s : str) :
  hd [] (split_aux sep 0 cur s) = cur ++ before_first sep s.
Proof.
  revert cur. induction s as [|c t IH]; intros cur.
  - simpl. now rewrite app_nil_r.
  - cbn [split_aux before_first].
    destruct (startswith (c :: t) sep).
    + simpl. now rewrite app_nil_r.
    + rewrite IH. now rewrite <- app_assoc.
Qed.

(** [s.split(sep)[0]] is the text before the first occurrence of [sep]. *)
Lemma split_hd (s sep : str) :
  hd [] (split s sep) = before_first sep s.
Proof. unfold split. now rewrite split_aux_hd. Qed.

Lemma before_first_spec (sep s : str) :
  (forall k, k < List.length (before_first sep s) ->
             startswith (skipn k s) sep = false)
  /\ (before_first sep s = s
      \/ exists rest, s = before_first sep s ++ sep ++ rest).
Proof.
  induction s as [|c t [IHk IHd]].
  - split; [simpl; intros k Hk; lia|now left].
  - cbn [before_first].
    destruct (startswith (c :: t) sep) eqn:Hs.
    + split; [simpl; intros k Hk; lia|].
      right. simpl. now apply startswith_app.
    + split.
      * intros [|k] Hk; [exact Hs|]. simpl in Hk. simpl.
        apply IHk. lia.
      * destruct IHd as [Heq|[rest Hrest]].
        -- left. now rewrite Heq.
        -- right. exists rest. simpl. now rewrite <- Hrest.
Qed.

(** C3, as the code has it: when some line of the markdown starts with
    the heading marker, the outline is the list of the lines that start
    with it, stripped, in document order, and nothing else. *)
Theorem outline_of_heading_lines (md : str) :
  existsb starts_with_hash (splitlines md) = true ->
  _outline_from_markdown md
  = map strip (filter starts_with_hash (splitlines md)).
Proof.
  intros H. unfold _outline_from_markdown.
  rewrite outline_heading_loop. simpl.
  destruct (map strip (filter starts_with_hash (splitlines md))) eqn:Hm;
    [|reflexivity].
  apply map_eq_nil in Hm. apply filter_nil_existsb in Hm. congruence.
Qed.

Lemma outline_of_heading_lines_witness :
  let md := lit "# A " ++ [NL] ++ lit "text" ++ [NL] ++ lit "## B" in
  existsb starts_with_hash (splitlines md) = true
  /\ _outline_from_markdown md = [lit "# A"; lit "## B"].
Proof.
  split; [reflexivity|].
  exact (outline_of_heading_lines
           (lit "# A " ++ [NL] ++ lit "text" ++ [NL] ++ lit "## B")
           eq_refl).
Defined.

(** C3 as stated fails: an indented heading line is a heading line in the
    words of the specification, and the outliner does not collect it. *)
Lemma outline_misses_indented_heading :
  let md := lit "  # Title" in
  existsb Spec.heading_line (splitlines md) = true
  /\ Spec.heading_outline md = [lit "# Title"]
  /\ _outline_from_markdown md = [lit "- Section 1: # Title" ++ [ELLIPSIS]]
  /\ _outline_from_markdown md <> Spec.heading_outline md.
Proof.
  repeat split; try reflexivity.
  vm_compute. discriminate.
Qed.

(** C9, as the code has it: without a line that starts with the heading
    marker and with at least one non-empty paragraph, the outline has
    between 1 and 10 entries; the entry at position [k] is
    ["- Section <k+1>: <snippet>…"] for the [k]-th non-empty paragraph,
    where the snippet is the first 80 characters at most of the paragraph's
    text before its first [". "], or of the whole paragraph when it has
    none. *)
Theorem outline_of_paragraphs (md : str) :
  existsb starts_with_hash (splitlines md) = false ->
  paragraphs md <> [] ->
  1 <= List.length (_outline_from_markdown md) <= 10
  /\ List.length (_outline_from_markdown md)
     = Nat.min 10 (List.length (paragraphs md))
  /\ forall k entry,
       nth_error (_outline_from_markdown md) k = Some entry ->
       exists p first snippet,
         nth_error (paragraphs md) k = Some p
         /\ entry = lit "- Section " ++ str_of_nat (k + 1) ++ lit ": "
                    ++ snippet ++ [ELLIPSIS]
         /\ snippet = firstn 80 first
         /\ List.length snippet <= 80
         /\ (forall j, j < List.length first ->
                       startswith (skipn j p) (lit ". ") = false)
         /\ (first = p \/ exists rest, p = first ++ lit ". " ++ rest).
Proof.
  intros Hh Hp.
  assert (Ho : _outline_from_markdown md
               = map (fun ip => section_entry (fst ip) (snd ip))
                   (enumerate 1 (firstn 10 (paragraphs md)))).
  { unfold _outline_from_markdown. rewrite outline_heading_loop.
    apply filter_nil_existsb in Hh. rewrite Hh. simpl.
    now rewrite outline_section_loop. }
  assert (Hl : List.length (_outline_from_markdown md)
               = Nat.min 10 (List.length (paragraphs md))).
  { now rewrite Ho, length_map, enumerate_length, length_firstn. }
  split; [|split; [exact Hl|]].
  - rewrite Hl. destruct (paragraphs md); [congruence|]. simpl List.length. lia.
  - intros k entry Hk. rewrite Ho, nth_error_map, nth_error_enumerate in Hk.
    destruct (nth_error (firstn 10 (paragraphs md)) k) as [p|] eqn:Hn;
      [|discriminate].
    simpl in Hk. injection Hk as Hk.
    exists p, (before_first (lit ". ") p),
      (firstn 80 (before_first (lit ". ") p)).
    assert (Hk10 : k < 10).
    { assert (Hlt : k < List.length (firstn 10 (paragraphs md)))
        by (apply nth_error_Some; congruence).
      rewrite length_firstn in Hlt. lia. }
    repeat split.
    + rewrite nth_error_firstn in Hn.
      destruct (k <? 10) eqn:Hlt; [exact Hn|].
      apply Nat.ltb_ge in Hlt. lia.
    + rewrite <- Hk. unfold section_entry. rewrite split_hd.
      now rewrite (Nat.add_comm k 1).
    + rewrite length_firstn. lia.
    + apply before_first_spec.
    + apply before_first_spec.
Qed.

Lemma outline_of_paragraphs_witness :
  let md := lit "One. Two" ++ [NL; NL] ++ lit "Three" in
  existsb starts_with_hash (splitlines md) = false
  /\ paragraphs md <> []
  /\ 1 <= List.length (_outline_from_markdown md) <= 10.
Proof.
  split; [reflexivity|]. split; [discriminate|].
  apply (outline_of_paragraphs
           (lit "One. Two" ++ [NL; NL] ++ lit "Three")).
  - reflexivity.
  - discriminate.
Defined.

(** C9 as stated fails: the synthesized entries start with the list marker
    ["- "], so none of them reads ["Section <i>: <snippet>…"]. *)
Lemma outline_entry_starts_with_list_marker :
  let md := lit "hello" in
  existsb Spec.heading_line (splitlines md) = false
  /\ paragraphs md = [lit "hello"]
  /\ _outline_from_markdown md = [lit "- Section 1: hello" ++ [ELLIPSIS]]
  /\ forall i snippet,
       ~ In (Spec.section_entry i snippet) (_outline_from_markdown md).
Proof.
  repeat split; try reflexivity.
  intros i snippet [H|[]]. discriminate.
Qed.

(* ------------------------------------------------------------------ *)
(** ** Summarizer *)

Lemma walk_step_bound (st : WalkState) (line : str) :
  List.length (bullets st) <= 20 ->
  List.length (bullets (walk_step st line)) <= 20.
Proof.
  intros H. unfold walk_step.
  destruct (startswith line (lit "#")); [exact H|].
  destruct (current_section st) as [section|]; [|exact H].
  destruct (truthy section && (List.length (bullets st) <? 20)) eqn:Hc;
    [|exact H].
  destruct (truthy (hd [] (split line (lit ". ")))); [|exact H].
  apply andb_prop in Hc. destruct Hc as [_ Hlt].
  apply Nat.ltb_lt in Hlt.
  cbn [bullets]. rewrite length_app. simpl List.length. lia.
Qed.

Lemma walk_bound (lines : list str) (st : WalkState) :
  List.length (bullets st) <= 20 ->
  List.length (bullets (fold_left walk_step lines st)) <= 20.
Proof.
  revert st. induction lines as [|line lines IH]; intros st H; simpl.
  - exact H.
  - apply IH. now apply walk_step_bound.
Qed.

(** Until a heading is seen the walk has no section and adds nothing. *)
Lemma walk_without_heading (lines : list str) (bs : list str) :
  existsb starts_with_hash lines = false ->
  fold_left walk_step lines (mkWalkState None bs) = mkWalkState None bs.
Proof.
  induction lines as [|line lines IH]; intros H; simpl; [reflexivity|].
  simpl in H. apply orb_false_elim in H. destruct H as [Hl Hr].
  unfold walk_step at 2. unfold starts_with_hash in Hl. rewrite Hl. simpl.
  now apply IH.
Qed.

Lemma fallback_bullets_length (lines : list str) :
  List.length (fallback_bullets lines) <= 7.
Proof.
  unfold fallback_bullets. rewrite length_map.
  etransitivity; [apply filter_length_le|].
  rewrite length_firstn. lia.
Qed.

(** C5: the bullets [_summarize_markdown] returns are at most the cap of
    the tier, 7 for short, 15 for medium and 30 for long; and after any
    number of lines the heading walk holds at most 20 bullets. *)
Theorem summarize_bullet_caps (md : str) (length : Tier) :
  List.length (snd (_summarize_markdown md length)) <= tier_cap length
  /\ tier_cap short = 7 /\ tier_cap medium = 15 /\ tier_cap long = 30
  /\ forall k,
       List.length (bullets (heading_walk (firstn k (stripped_lines md))))
       <= 20.
Proof.
  split; [|repeat split].
  - unfold _summarize_markdown. simpl. rewrite length_firstn. lia.
  - intros k. unfold heading_walk. apply walk_bound. simpl. lia.
Qed.

(** C4, as the code has it: the fallback is taken exactly when the heading
    walk gave no bullet, which is so for every document without a heading
    line; the fallback takes the first 7 pieces of the joined lines split
    at [". "], drops the empty ones, and the cap of the tier is applied
    after that, last. *)
Theorem summarize_fallback (md : str) (length : Tier) :
  let lines := stripped_lines md in
  let walked := bullets (heading_walk lines) in
  (walked = [] ->
     snd (_summarize_markdown md length)
     = firstn (tier_cap length)
         (map (fun s => strip s ++ lit ".")
            (filter truthy
               (firstn 7 (split (join (lit " ") lines) (lit ". "))))))
  /\ (walked <> [] ->
        snd (_summarize_markdown md length) = firstn (tier_cap length) walked)
  /\ (existsb starts_with_hash lines = false -> walked = [])
  /\ List.length (fallback_bullets lines) <= 7.
Proof.
  intros lines walked. repeat split.
  - intros H. unfold _summarize_markdown, uncapped_bullets. simpl.
    fold lines. fold walked. now rewrite H.
  - intros H. unfold _summarize_markdown, uncapped_bullets. simpl.
    fold lines. fold walked. destruct walked; [congruence|reflexivity].
  - intros H. unfold walked, heading_walk.
    now rewrite walk_without_heading.
  - apply fallback_bullets_length.
Qed.

(** C4 as stated fails: a document that is one heading line has heading
    structure, the walk gives no bullet, and the fallback is taken. *)
Lemma summarize_fallback_with_heading :
  let md := lit "# Title" in
  existsb Spec.heading_line (splitlines md) = true
  /\ existsb starts_with_hash (stripped_lines md) = true
  /\ bullets (heading_walk (stripped_lines md)) = []
  /\ snd (_summarize_markdown md short) = [lit "# Title."]
  /\ snd (_summarize_markdown md short)
     = firstn (tier_cap short) (fallback_bullets (stripped_lines md)).
Proof. repeat split. Qed.

(* ------------------------------------------------------------------ *)
(** ** Extractor: what a successful extraction holds *)

Lemma extract_url_success (E : Collaborators) (url : str) (res : FetchResult) :
  _extract_url E url = inr res ->
  exists resp,
    client_get E url = Returns resp
    /\ canonical_url (meta res) = Some (resp_url resp)
    /\ reading_time_minutes (meta res) = Some (reading_time (markdown res))
    /\ links res = harvest_links E (resp_text resp)
    /\ markdown_body E (resp_text resp) (main_content E (resp_text resp))
       = inr (markdown res).
Proof.
  unfold _extract_url. intros H.
  destruct (client_get E url) as [cause|text|resp];
    [discriminate|discriminate|].
  destruct (400 <=? status_code resp)%N; [discriminate|].
  destruct (negb _); [discriminate|].
  exists resp. unfold main_content.
  destruct (simple_json_from_html_string E (resp_text resp)) as [t|sj];
    cbn [propagate bind] in H; [discriminate|].
  destruct (markdown_body E (resp_text resp)
              match sj with
              | Some d => sj_content d
              | None => None
              end) as [exc|md] eqn:Hmd;
    cbn [bind] in H; [discriminate|].
  injection H as <-.
  cbn [meta markdown links canonical_url reading_time_minutes].
  repeat split; destruct sj; exact Hmd.
Qed.

Lemma split_ws_spaces (s : str) :
  forallb isspace s = true -> split_ws s = [].
Proof.
  unfold split_ws. induction s as [|c s IH]; intros H; [reflexivity|].
  simpl in H. apply andb_prop in H. destruct H as [Hc Hs].
  cbn [split_ws_aux]. rewrite Hc. now apply IH.
Qed.

(** C6: the reading time of a successful extraction is
    [max(1, round(wordCount / 200))] for the number of whitespace-delimited
    words of its markdown body; it is at least 1, and it is 1 for an empty
    body and for a body of white space. *)
Theorem reading_time_formula (E : Collaborators) (url : str) :
  (forall res, _extract_url E url = inr res ->
     reading_time_minutes (meta res)
     = Some (Spec.reading_time_minutes (word_count (markdown res)))
     /\ exists m, reading_time_minutes (meta res) = Some m /\ (1 <= m)%N)
  /\ (forall md,
        reading_time md = Spec.reading_time_minutes (word_count md)
        /\ (1 <= reading_time md)%N)
  /\ reading_time [] = 1%N
  /\ (forall md, forallb isspace md = true -> reading_time md = 1%N).
Proof.
  assert (Heq : forall md,
            reading_time md = Spec.reading_time_minutes (word_count md)).
  { intros md. unfold reading_time, Spec.reading_time_minutes.
    destruct (N.eq_dec (word_count md) 0) as [H0|H0].
    - rewrite H0. reflexivity.
    - cbv zeta. rewrite (N.max_r 1 (word_count md)) by lia. reflexivity. }
  assert (Hge : forall md, (1 <= reading_time md)%N).
  { intros md. unfold reading_time. lia. }
  repeat split.
  - apply extract_url_success in H.
    destruct H as [resp [_ [_ [Hr _]]]]. now rewrite Hr, Heq.
  - apply extract_url_success in H.
    destruct H as [resp [_ [_ [Hr _]]]].
    exists (reading_time (markdown res)). split; [exact Hr|apply Hge].
  - apply Heq.
  - apply Hge.
  - intros md H. unfold reading_time, word_count.
    now rewrite split_ws_spaces.
Qed.

(* ------------------------------------------------------------------ *)
(** ** Extractor: the markdown body without main content *)

(** C7, as the code has it: when the readability engine gives no usable
    main content for the page, the extractor calls
    [extract_content_from_html] on the page, which asks the same engine
    again and so returns the sentinel: the markdown body is the sentinel,
    whatever the markdown converter would make of the full page. *)
Theorem extract_without_main_content (E : Collaborators) (url : str)
  (res : FetchResult) (resp : Response) :
  _extract_url E url = inr res ->
  client_get E url = Returns resp ->
  opt_truthy (main_content E (resp_text resp)) = false ->
  extract_content_from_html E (resp_text resp) = inr (markdown res)
  /\ markdown res = ERROR_SENTINEL.
Proof.
  intros Hres Hget Hnone.
  apply extract_url_success in Hres.
  destruct Hres as [resp' [Hget' [_ [_ [_ Hmd]]]]].
  rewrite Hget in Hget'. injection Hget' as <-.
  assert (Hext : extract_content_from_html E (resp_text resp)
                 = inr (markdown res)).
  { unfold markdown_body in Hmd.
    destruct (main_content E (resp_text resp)) as [[|c0 c]|];
      [exact Hmd|discriminate|exact Hmd]. }
  split; [exact Hext|].
  unfold extract_content_from_html in Hext. unfold main_content in Hnone.
  destruct (simple_json_from_html_string E (resp_text resp)) as [t|ret];
    cbn [propagate bind] in Hext; [discriminate|].
  destruct ret as [d|]; [|now injection Hext as <-].
  destruct (sj_content d) as [c|]; [|now injection Hext as <-].
  cbn [opt_truthy] in Hnone. rewrite Hnone in Hext. now injection Hext as <-.
Qed.

Lemma extract_without_main_content_witness :
  _extract_url plain_page_world (lit "http://a") = inr plain_page_result
  /\ markdown plain_page_result = ERROR_SENTINEL.
Proof.
  split; [reflexivity|].
  apply (@extract_without_main_content plain_page_world (lit "http://a")
           plain_page_result plain_page_response);
    reflexivity.
Defined.

(** C7 as stated fails: the engine finds no main content in a page whose
    full conversion is not empty, and the markdown body is the sentinel,
    not that conversion. *)
Lemma extract_never_converts_full_page :
  _extract_url plain_page_world (lit "http://a") = inr plain_page_result
  /\ opt_truthy (main_content plain_page_world (lit "<p>hi</p>")) = false
  /\ Spec.fallback_markdown plain_page_world (lit "<p>hi</p>")
     = inr (lit "<p>hi</p>")
  /\ markdown plain_page_result = ERROR_SENTINEL
  /\ inr (markdown plain_page_result)
     <> Spec.fallback_markdown plain_page_world (lit "<p>hi</p>").
Proof.
  repeat split. discriminate.
Qed.

(* ------------------------------------------------------------------ *)
(** ** Extractor: the links *)

Lemma collect_href_loop (anchors : list PageElement) (acc : list str) :
  fold_left collect_href anchors acc = acc ++ flat_map kept_href anchors.
Proof.
  revert acc. induction anchors as [|a anchors IH]; intros acc; simpl.
  - now rewrite app_nil_r.
  - rewrite IH. destruct a as [[href|l]|]; cbn [collect_href kept_href].
    + destruct (startswith href (lit "http")).
      * now rewrite <- app_assoc.
      * reflexivity.
    + reflexivity.
    + reflexivity.
Qed.

Lemma collected_hrefs_eq (anchors : list PageElement) :
  collected_hrefs anchors = flat_map kept_href anchors.
Proof. unfold collected_hrefs. now rewrite collect_href_loop. Qed.

Lemma collected_hrefs_in (anchors : list PageElement) (l : str) :
  In l (collected_hrefs anchors)
  <-> In (anchor l) anchors /\ startswith l (lit "http") = true.
Proof.
  rewrite collected_hrefs_eq, in_flat_map. split.
  - intros [a [Ha Hl]]. destruct a as [[href|hs]|]; cbn [kept_href] in Hl;
      try contradiction.
    destruct (startswith href (lit "http")) eqn:Hp; [|contradiction].
    destruct Hl as [<-|[]]. now split.
  - intros [Ha Hp]. exists (anchor l). split; [exact Ha|].
    cbn [anchor kept_href]. rewrite Hp. now left.
Qed.

Lemma dict_fromkeys_snoc (l : list str) (x : str) :
  dict_fromkeys (l ++ [x]) = dict_insert (dict_fromkeys l) x.
Proof. unfold dict_fromkeys. now rewrite fold_left_app. Qed.

Lemma dict_insert_in (d : list str) (k y : str) :
  In y (dict_insert d k) <-> In y d \/ y = k.
Proof.
  unfold dict_insert. destruct (in_dec str_eq_dec k d) as [Hk|Hk].
  - split; [now left|]. intros [H | ->]; assumption.
  - rewrite in_app_iff. simpl. split.
    + intros [H|[H|[]]]; [now left|now right].
    + intros [H| ->]; [now left|right; now left].
Qed.

Lemma dict_fromkeys_in (l : list str) (y : str) :
  In y (dict_fromkeys l) <-> In y l.
Proof.
  induction l as [|x l IH] using rev_ind.
  - reflexivity.
  - rewrite dict_fromkeys_snoc, dict_insert_in, in_app_iff, IH. simpl.
    intuition congruence.
Qed.

Lemma dict_fromkeys_NoDup (l : list str) : NoDup (dict_fromkeys l).
Proof.
  induction l as [|x l IH] using rev_ind.
  - constructor.
  - rewrite dict_fromkeys_snoc. unfold dict_insert.
    destruct (in_dec str_eq_dec x (dict_fromkeys l)) as [Hx|Hx];
      [exact IH|].
    apply NoDup_rev in IH. rewrite <- (rev_involutive (_ ++ [x])).
    apply NoDup_rev. rewrite rev_app_distr. simpl.
    constructor; [|exact IH]. now rewrite <- in_rev.
Qed.









(* ------------------------------------------------------------------ *)
(** ** Citations of a summary *)

Lemma citations_of_canonical (res : FetchResult) (bs : list str) (u : str) :
  canonical_url (meta res) = Some u ->
  u <> [] ->
  citations_of res bs
  = map (fun k => lit "[" ++ str_of_nat k ++ lit "] " ++ u)
      (seq 1 (Nat.min (List.length bs) 5)).
Proof.
  intros Hc Hu. unfold citations_of. rewrite Hc.
  destruct u as [|c u]; [congruence|]. cbn [truthy].
  rewrite flat_map_singleton, <- seq_shift, map_map.
  apply map_ext. intros i. now rewrite Nat.add_1_r.
Qed.

(** C10: for a successful extraction, whose canonical URL is the URL of
    the response, the citations of [summarize_url] are
    [min(number of bullets, 5)] lines; line [k] is ["[k] <canonical URL>"],
    the same URL on every line, and the block under ["## Citations"] is
    these lines joined by newlines. *)
Theorem summarize_url_citations (E : Collaborators) (url : str)
  (length : Tier) (res : FetchResult) (resp : Response) :
  _extract_url E url = inr res ->
  client_get E url = Returns resp ->
  resp_url resp <> [] ->
  let bs := snd (_summarize_markdown (markdown res) length) in
  let cites :=
    map (fun k => lit "[" ++ str_of_nat k ++ lit "] " ++ resp_url resp)
      (seq 1 (Nat.min (List.length bs) 5)) in
  canonical_url (meta res) = Some (resp_url resp)
  /\ citations_of res bs = cites
  /\ List.length cites = Nat.min (List.length bs) 5
  /\ (forall k line, nth_error cites k = Some line ->
        line = lit "[" ++ str_of_nat (k + 1) ++ lit "] " ++ resp_url resp)
  /\ summarize_url E url length
     = inr (lit "prepare well-structured, easy-to-understand summary from the content below. "
            ++ lit "## " ++ or_default (title (meta res)) (lit "Summary")
            ++ [NL; NL]
            ++ lit "## Key Points" ++ [NL; NL]
            ++ fst (_summarize_markdown (markdown res) length) ++ [NL; NL]
            ++ lit "## Citations" ++ [NL; NL] ++ join [NL] cites
            ++ [NL; NL]).
Proof.
  intros Hres Hget Hurl bs cites.
  pose proof (extract_url_success _ _ Hres) as Hs.
  destruct Hs as [resp' [Hget' [Hcanon _]]].
  rewrite Hget in Hget'. injection Hget' as <-.
  assert (Hc : citations_of res bs = cites)
    by (now apply citations_of_canonical).
  split; [exact Hcanon|]. split; [exact Hc|]. split; [|split].
  - unfold cites. now rewrite length_map, length_seq.
  - intros k line Hk. unfold cites in Hk.
    rewrite nth_error_map in Hk.
    destruct (nth_error (seq 1 (Nat.min (List.length bs) 5)) k) as [n|] eqn:Hn;
      [|discriminate].
    simpl in Hk. injection Hk as <-.
    assert (Hlt : k < List.length (seq 1 (Nat.min (List.length bs) 5)))
      by (apply nth_error_Some; congruence).
    rewrite length_seq in Hlt.
    assert (Hseq : nth_error (seq 1 (Nat.min (List.length bs) 5)) k
                   = Some (1 + k)).
    { rewrite nth_error_nth' with (d := 0) by (now rewrite length_seq).
      now rewrite seq_nth. }
    rewrite Hseq in Hn. injection Hn as <-.
    now rewrite (Nat.add_comm k 1).
  - unfold summarize_url. rewrite Hres.
    destruct (_summarize_markdown (markdown res) length) as [summary_md bs']
      eqn:Hsum.
    simpl in bs. subst bs. cbn [fst]. now rewrite Hc.
Qed.

Lemma summarize_url_citations_witness :
  _extract_url plain_page_world (lit "http://a") = inr plain_page_result
  /\ citations_of plain_page_result
       (snd (_summarize_markdown (markdown plain_page_result) short))
     = [lit "[1] http://a/"].
Proof.
  split; [reflexivity|].
  apply (@summarize_url_citations plain_page_world (lit "http://a") short
           plain_page_result plain_page_response eq_refl eq_refl).
  discriminate.
Defined.

(* ------------------------------------------------------------------ *)
(** ** The anchor scan and the rest of the extraction *)

(** X1: whatever the anchor scan returns, and also when it raises, the
    extraction fails or succeeds alike, with the same error or the same
    metadata and markdown body: the scan decides the links and nothing
    else. *)
Theorem extract_url_scan_independent (E : Collaborators) (url : str)
  (scan : str -> option (list PageElement)) :
  let E' := mkCollaborators (client_get E) (simple_json_from_html_string E)
              (markdownify E) scan in
  match _extract_url E url, _extract_url E' url with
  | inl exc, inl exc' => exc = exc'
  | inr res, inr res' => meta res = meta res' /\ markdown res = markdown res'
  | _, _ => False
  end.
Proof.
  intros E'. unfold _extract_url.
  change (client_get E' url) with (client_get E url).
  destruct (client_get E url) as [cause|text|resp]; try reflexivity.
  destruct (400 <=? status_code resp)%N; [reflexivity|].
  destruct (negb _); [reflexivity|].
  change (simple_json_from_html_string E' (resp_text resp))
    with (simple_json_from_html_string E (resp_text resp)).
  destruct (simple_json_from_html_string E (resp_text resp)) as [t|sj] eqn:Hsj;
    cbn [propagate bind]; [reflexivity|].
  assert (Hbody : forall content,
            markdown_body E' (resp_text resp) content
            = markdown_body E (resp_text resp) content) by reflexivity.
  rewrite Hbody.
  destruct (markdown_body E (resp_text resp)
              match sj with
              | Some d => sj_content d
              | None => None
              end) as [exc|md];
    cbn [bind]; [reflexivity|].
  cbn [meta markdown]. now split.
Qed.

(* ------------------------------------------------------------------ *)
(** ** Further properties of the reading time *)

Lemma round_div_200_cases (w : N) :
  exists q r,
    (w = 200 * q + r /\ r < 200
     /\ ((r < 100 /\ round_div w 200 = q)
         \/ (r = 100 /\ round_div w 200 = if N.even q then q else q + 1)
         \/ (100 < r /\ round_div w 200 = q + 1)))%N.
Proof.
  exists (w / 200)%N, (w mod 200)%N.
  split; [apply N.div_mod; discriminate|].
  split; [apply N.mod_lt; discriminate|].
  unfold round_div.
  destruct (2 * (w mod 200) ?= 200)%N eqn:Hc.
  - apply N.compare_eq in Hc. right. left. split; [lia|reflexivity].
  - rewrite N.compare_lt_iff in Hc. left. split; [lia|reflexivity].
  - rewrite N.compare_gt_iff in Hc. right. right. split; [lia|reflexivity].
Qed.

Lemma round_div_200_monotone (w1 w2 : N) :
  (w1 <= w2 -> round_div w1 200 <= round_div w2 200)%N.
Proof.
  intros Hle.
  destruct (round_div_200_cases w1) as [q1 [r1 [H1 [Hr1 C1]]]].
  destruct (round_div_200_cases w2) as [q2 [r2 [H2 [Hr2 C2]]]].
  destruct (N.eq_dec q1 q2) as [->|Hq].
  - destruct (N.even q2);
      destruct C1 as [[? ->]|[[? ->]|[? ->]]];
      destruct C2 as [[? ->]|[[? ->]|[? ->]]]; lia.
  - assert (q1 < q2)%N by lia.
    destruct (N.even q1); destruct (N.even q2);
      destruct C1 as [[? ->]|[[? ->]|[? ->]]];
      destruct C2 as [[? ->]|[[? ->]|[? ->]]]; lia.
Qed.

(** X5: a markdown body with at least as many words never gets a
    shorter reading time. *)
Theorem reading_time_monotone (md1 md2 : str) :
  (word_count md1 <= word_count md2)%N ->
  (reading_time md1 <= reading_time md2)%N.
Proof.
  intros H. unfold reading_time.
  assert (Hr : (round_div (N.max 1 (word_count md1)) 200
                <= round_div (N.max 1 (word_count md2)) 200)%N)
    by (apply round_div_200_monotone; lia).
  cbv zeta. lia.
Qed.

Lemma reading_time_monotone_witness :
  (reading_time (lit "one") <= reading_time (lit "one two"))%N.
Proof.
  apply reading_time_monotone. vm_compute. discriminate.
Defined.

(** X6: the reading time is within half a minute of one minute per 200
    words, except that it is never below one minute. *)
Theorem reading_time_half_minute (md : str) :
  (word_count md <= 200 * reading_time md + 100
   /\ (200 * reading_time md <= word_count md + 100
       \/ reading_time md = 1))%N.
Proof.
  unfold reading_time. cbv zeta.
  destruct (round_div_200_cases (N.max 1 (word_count md)))
    as [q [r [Hw [Hr C]]]].
  destruct (N.even q);
    destruct C as [[? Hrd]|[[? Hrd]|[? Hrd]]]; rewrite Hrd; lia.
Qed.

(* ------------------------------------------------------------------ *)
(** ** Further properties of the summarizer *)

Lemma In_firstn (A : Type) (n : nat) (l : list A) (x : A) :
  In x (firstn n l) -> In x l.
Proof.
  revert l. induction n as [|n IH]; intros l H; [contradiction|].
  destruct l as [|y l]; [contradiction|].
  destruct H as [H|H]; [now left|right; now apply IH].
Qed.

Lemma NoDup_firstn (A : Type) (n : nat) (l : list A) :
  NoDup l -> NoDup (firstn n l).
Proof.
  revert l. induction n as [|n IH]; intros l H; [constructor|].
  destruct l as [|y l]; [constructor|].
  inversion H as [|y' l' Hy Hl]; subst. simpl. constructor.
  - intros Hin. apply Hy. now apply In_firstn in Hin.
  - now apply IH.
Qed.

Lemma uncapped_bullets_length (lines : list str) :
  List.length (uncapped_bullets lines) <= 20.
Proof.
  unfold uncapped_bullets.
  pose proof (@walk_bound lines (mkWalkState None [])) as Hw.
  fold (heading_walk lines) in Hw.
  destruct (bullets (heading_walk lines)) as [|b bs].
  - pose proof (fallback_bullets_length lines). lia.
  - apply Hw. simpl. lia.
Qed.

(** X7: whatever the tier, a summary has at most 20 bullets, so the cap of
    30 is never reached: the long tier returns every bullet collected. *)
Theorem summarize_at_most_twenty (md : str) (length : Tier) :
  List.length (snd (_summarize_markdown md length)) <= 20
  /\ snd (_summarize_markdown md long) = uncapped_bullets (stripped_lines md).
Proof.
  pose proof (uncapped_bullets_length (stripped_lines md)) as H.
  unfold _summarize_markdown. cbn [snd]. split.
  - rewrite length_firstn. lia.
  - apply firstn_all2. cbn [tier_cap]. lia.
Qed.

(** X8: the bullets of a shorter tier are the first bullets of a longer
    one: short gives the first 7 of medium, medium the first 15 of long. *)
Theorem summarize_tiers_nest (md : str) :
  snd (_summarize_markdown md short)
  = firstn 7 (snd (_summarize_markdown md medium))
  /\ snd (_summarize_markdown md medium)
     = firstn 15 (snd (_summarize_markdown md long))
  /\ fst (_summarize_markdown md short)
     = render_bullets (firstn 7 (snd (_summarize_markdown md long))).
Proof.
  unfold _summarize_markdown. cbn [fst snd tier_cap].
  rewrite !firstn_firstn. repeat split.
Qed.

Lemma walk_step_headings (st : WalkState) (line : str) :
  List.length (bullets (walk_step st line)) + pending (walk_step st line)
  <= List.length (bullets st) + pending st
     + (if starts_with_hash line then 1 else 0).
Proof.
  unfold walk_step, starts_with_hash, pending.
  destruct (startswith line (lit "#")).
  - cbn [bullets current_section]. destruct (current_section st); lia.
  - destruct (current_section st) as [section|] eqn:Hs.
    + destruct (truthy section && (List.length (bullets st) <? 20)).
      * destruct (truthy (hd [] (split line (lit ". ")))).
        -- cbn [bullets current_section]. rewrite length_app.
           simpl List.length. lia.
        -- rewrite Hs. lia.
      * rewrite Hs. lia.
    + rewrite Hs. lia.
Qed.

Lemma walk_headings (lines : list str) (st : WalkState) :
  List.length (bullets (fold_left walk_step lines st))
  + pending (fold_left walk_step lines st)
  <= List.length (bullets st) + pending st
     + List.length (filter starts_with_hash lines).
Proof.
  revert st. induction lines as [|line lines IH]; intros st;
    cbn [fold_left filter].
  - simpl. lia.
  - pose proof (IH (walk_step st line)) as H1.
    pose proof (walk_step_headings st line) as H2.
    destruct (starts_with_hash line); simpl List.length; lia.
Qed.

(** X9: the heading walk gives at most one bullet per heading line, so a
    summary that is not the fallback has no more bullets than the document
    has headings. *)
Theorem summarize_one_bullet_per_heading (md : str) (length : Tier) :
  let lines := stripped_lines md in
  List.length (bullets (heading_walk lines))
  <= List.length (filter starts_with_hash lines)
  /\ (bullets (heading_walk lines) <> [] ->
      List.length (snd (_summarize_markdown md length))
      <= List.length (filter starts_with_hash lines)).
Proof.
  intros lines.
  assert (H : List.length (bullets (heading_walk lines))
              <= List.length (filter starts_with_hash lines)).
  { pose proof (walk_headings lines (mkWalkState None [])) as H.
    fold (heading_walk lines) in H. simpl in H. lia. }
  split; [exact H|].
  intros Hne. unfold _summarize_markdown, uncapped_bullets. cbn [snd].
  fold lines. rewrite length_firstn.
  destruct (bullets (heading_walk lines)); [congruence|]. lia.
Qed.

Lemma lstrip_by_head (p : char -> bool) (s : str) :
  match lstrip_by p s with
  | [] => True
  | c :: _ => p c = false
  end.
Proof.
  induction s as [|c s IH]; simpl; [exact I|].
  destruct (p c) eqn:Hp; [exact IH|exact Hp].
Qed.

Lemma walk_step_shape (st : WalkState) (line : str) :
  Forall labelled_bullet (bullets st) -> label_ok (current_section st) ->
  Forall labelled_bullet (bullets (walk_step st line))
  /\ label_ok (current_section (walk_step st line)).
Proof.
  intros Hb Hl. unfold walk_step.
  destruct (startswith line (lit "#")).
  - cbn [bullets current_section]. split; [exact Hb|].
    unfold label_ok, lstrip_chars.
    pose proof (lstrip_by_head (char_in (lit "# ")) line) as Hh.
    destruct (lstrip_by (char_in (lit "# ")) line); [exact I|exact Hh].
  - destruct (current_section st) as [section|] eqn:Hs.
    + destruct (truthy section && (List.length (bullets st) <? 20)) eqn:Hc.
      * destruct (truthy (hd [] (split line (lit ". ")))).
        -- cbn [bullets current_section]. split; [|exact I].
           apply Forall_app. split; [exact Hb|].
           constructor; [|constructor].
           apply andb_prop in Hc. destruct Hc as [Ht _].
           destruct section as [|c rest]; [discriminate|].
           exists c,
             (rest ++ lit ": "
              ++ strip_chars (lit ". ") (hd [] (split line (lit ". ")))
              ++ lit "."),
             ((c :: rest) ++ lit ": "
              ++ strip_chars (lit ". ") (hd [] (split line (lit ". ")))).
           split; [reflexivity|]. split; [exact Hl|].
           now rewrite <- !app_assoc.
        -- rewrite Hs. now split.
      * rewrite Hs. now split.
    + rewrite Hs. now split.
Qed.

Lemma walk_shape (lines : list str) (st : WalkState) :
  Forall labelled_bullet (bullets st) -> label_ok (current_section st) ->
  Forall labelled_bullet (bullets (fold_left walk_step lines st)).
Proof.
  revert st. induction lines as [|line lines IH]; intros st Hb Hl;
    cbn [fold_left]; [exact Hb|].
  destruct (@walk_step_shape st line Hb Hl) as [Hb' Hl'].
  now apply IH.
Qed.

(** X10: every bullet of a summary ends with a full stop, whether it comes
    from the heading walk or from the fallback. *)
Theorem summarize_bullets_end_with_stop (md : str) (length : Tier) (b : str) :
  In b (snd (_summarize_markdown md length)) ->
  exists body, b = body ++ lit ".".
Proof.
  unfold _summarize_markdown. cbn [snd]. intros H.
  apply In_firstn in H. unfold uncapped_bullets in H.
  destruct (bullets (heading_walk (stripped_lines md))) as [|b0 bs] eqn:Hw.
  - unfold fallback_bullets in H. apply in_map_iff in H.
    destruct H as [s [<- _]]. now exists (strip s).
  - assert (Hall : Forall labelled_bullet
                     (bullets (heading_walk (stripped_lines md))))
      by (apply walk_shape; [constructor|exact I]).
    rewrite Hw in Hall. rewrite Forall_forall in Hall.
    destruct (Hall b H) as [c [rest [body [_ [_ Hb]]]]]. now exists body.
Qed.

Lemma summarize_bullets_end_with_stop_witness :
  exists body, lit "# Title." = body ++ lit ".".
Proof.
  apply (@summarize_bullets_end_with_stop (lit "# Title") short
           (lit "# Title.")).
  now left.
Defined.

(** X11: when the bullets come from the heading walk, each starts with the
    first character of its section label, which is neither ["#"] nor a
    space: the heading markers never show in a bullet. *)
Theorem summarize_labels_without_marker (md : str) (length : Tier) (b : str) :
  bullets (heading_walk (stripped_lines md)) <> [] ->
  In b (snd (_summarize_markdown md length)) ->
  exists c rest, b = c :: rest /\ c <> 35%N /\ c <> 32%N.
Proof.
  intros Hne H. unfold _summarize_markdown in H. cbn [snd] in H.
  apply In_firstn in H. unfold uncapped_bullets in H.
  assert (Hall : Forall labelled_bullet
                   (bullets (heading_walk (stripped_lines md))))
    by (apply walk_shape; [constructor|exact I]).
  destruct (bullets (heading_walk (stripped_lines md))) as [|b0 bs];
    [congruence|].
  rewrite Forall_forall in Hall.
  destruct (Hall b H) as [c [rest [body [Hb [Hc _]]]]].
  exists c, rest. split; [exact Hb|].
  unfold char_in in Hc. cbn [lit existsb] in Hc.
  apply orb_false_elim in Hc. destruct Hc as [H35 Hc].
  apply orb_false_elim in Hc. destruct Hc as [H32 _].
  apply N.eqb_neq in H35. apply N.eqb_neq in H32. now split.
Qed.

Lemma summarize_labels_without_marker_witness :
  exists c rest,
    lit "Intro: First." = c :: rest /\ c <> 35%N /\ c <> 32%N.
Proof.
  apply (@summarize_labels_without_marker
           (lit "## Intro" ++ [NL] ++ lit "First. Second.") short
           (lit "Intro: First.")).
  - vm_compute. discriminate.
  - vm_compute. now left.
Defined.

(* ------------------------------------------------------------------ *)
(** ** White space only, and the shape of an outline *)

Lemma all_space_app (s t : str) :
  all_space (s ++ t) = all_space s && all_space t.
Proof. apply forallb_app. Qed.

Lemma lstrip_all_space (s : str) : all_space s = true -> lstrip_by isspace s = [].
Proof.
  induction s as [|c s IH]; intros H; [reflexivity|].
  simpl in H. apply andb_prop in H. destruct H as [Hc Hs].
  cbn [lstrip_by]. rewrite Hc. now apply IH.
Qed.

Lemma strip_all_space (s : str) : all_space s = true -> strip s = [].
Proof.
  intros H. unfold strip, strip_by. now rewrite lstrip_all_space.
Qed.

Lemma splitlines_aux_all_space (n : nat) (s cur : str) :
  List.length s <= n ->
  all_space cur = true -> all_space s = true ->
  Forall (fun l => all_space l = true) (splitlines_aux cur s).
Proof.
  revert s cur. induction n as [|n IH]; intros s cur Hn Hcur Hs.
  - destruct s; [|simpl in Hn; lia].
    simpl. destruct cur; [constructor|]. now repeat constructor.
  - destruct s as [|c t].
    + simpl. destruct cur; [constructor|]. now repeat constructor.
    + simpl in Hs. apply andb_prop in Hs. destruct Hs as [Hc Ht].
      simpl in Hn. cbn [splitlines_aux].
      destruct (islinebreak c).
      * constructor; [exact Hcur|].
        destruct t as [|c' t'].
        -- apply IH; [simpl; lia|reflexivity|reflexivity].
        -- simpl in Ht. apply andb_prop in Ht. destruct Ht as [Hc' Ht'].
           simpl in Hn.
           destruct ((c =? 13)%N && (c' =? 10)%N).
           ++ apply IH; [lia|reflexivity|exact Ht'].
           ++ apply IH; [simpl; lia|reflexivity|].
              simpl. now rewrite Hc', Ht'.
      * apply IH; [lia| |exact Ht].
        rewrite all_space_app, Hcur. simpl. now rewrite Hc.
Qed.

Lemma split_aux_all_space (sep : str) (s : str) (k : nat) (cur : str) :
  all_space cur = true -> all_space s = true ->
  Forall (fun l => all_space l = true) (split_aux sep k cur s).
Proof.
  revert k cur. induction s as [|c t IH]; intros k cur Hcur Hs.
  - simpl. now repeat constructor.
  - simpl in Hs. apply andb_prop in Hs. destruct Hs as [Hc Ht].
    cbn [split_aux]. destruct k as [|k].
    + destruct (startswith (c :: t) sep).
      * constructor; [exact Hcur|]. now apply IH.
      * apply IH; [|exact Ht].
        rewrite all_space_app, Hcur. simpl. now rewrite Hc.
    + now apply IH.
Qed.

Lemma filter_strip_all_space (ls : list str) :
  Forall (fun l => all_space l = true) ls ->
  filter (fun l => truthy (strip l)) ls = [].
Proof.
  induction 1 as [|l ls Hl _ IH]; [reflexivity|].
  cbn [filter]. now rewrite (strip_all_space _ Hl).
Qed.

Lemma filter_hash_all_space (ls : list str) :
  Forall (fun l => all_space l = true) ls ->
  filter starts_with_hash ls = [].
Proof.
  induction 1 as [|l ls Hl _ IH]; [reflexivity|].
  cbn [filter]. destruct l as [|c l]; [exact IH|].
  unfold starts_with_hash. cbn [startswith lit].
  destruct (N.eqb_spec (N_of_ascii "#") c) as [<-|_]; [|exact IH].
  discriminate.
Qed.

(** X12: a markdown body of white space only (the empty body too) has an
    empty outline, no bullets and an empty rendered summary. *)
Theorem blank_markdown (md : str) (length : Tier) :
  all_space md = true ->
  _outline_from_markdown md = []
  /\ _summarize_markdown md length = ([], []).
Proof.
  intros H.
  assert (Hlines : Forall (fun l => all_space l = true) (splitlines md))
    by (apply (@splitlines_aux_all_space (List.length md)); auto).
  assert (Hparas : Forall (fun l => all_space l = true) (split md [NL; NL]))
    by (now apply split_aux_all_space).
  split.
  - unfold _outline_from_markdown. rewrite outline_heading_loop.
    rewrite (filter_hash_all_space Hlines). cbn [map app].
    unfold paragraphs. now rewrite (filter_strip_all_space Hparas).
  - unfold _summarize_markdown, stripped_lines.
    rewrite (filter_strip_all_space Hlines). destruct length; reflexivity.
Qed.

Lemma blank_markdown_witness :
  _outline_from_markdown (lit "  " ++ [NL; NL; 9%N]) = []
  /\ _summarize_markdown (lit "  " ++ [NL; NL; 9%N]) medium = ([], []).
Proof.
  apply (@blank_markdown (lit "  " ++ [NL; NL; 9%N]) medium). reflexivity.
Defined.

Lemma lstrip_by_snoc_keep (p : char -> bool) (c : char) (l : str) :
  p c = false -> exists l', lstrip_by p (l ++ [c]) = l' ++ [c].
Proof.
  intros Hp. induction l as [|x l IH].
  - exists []. simpl. now rewrite Hp.
  - cbn [app lstrip_by]. destruct (p x).
    + exact IH.
    + now exists (x :: l).
Qed.

Lemma strip_by_keeps_head (p : char -> bool) (c : char) (t : str) :
  p c = false -> exists rest, strip_by p (c :: t) = c :: rest.
Proof.
  intros Hp. unfold strip_by, rstrip_by. cbn [lstrip_by]. rewrite Hp.
  cbn [rev].
  destruct (@lstrip_by_snoc_keep p c (rev t) Hp) as [l' ->].
  exists (rev l'). rewrite rev_app_distr. reflexivity.
Qed.

Lemma startswith_app_prefix (pre s : str) : startswith (pre ++ s) pre = true.
Proof.
  induction pre as [|p pre IH]; [now destruct s|].
  cbn [app startswith]. now rewrite N.eqb_refl, IH.
Qed.

(** X13: an outline is of one kind: either every entry is a heading line
    and starts with ["#"], or every entry is a synthesized one and starts
    with ["- Section "]. *)
Theorem outline_of_one_kind (md : str) :
  (forall e, In e (_outline_from_markdown md) ->
             startswith e (lit "#") = true)
  \/ (forall e, In e (_outline_from_markdown md) ->
                startswith e (lit "- Section ") = true).
Proof.
  unfold _outline_from_markdown. rewrite outline_heading_loop.
  cbn [app].
  destruct (map strip (filter starts_with_hash (splitlines md)))
    as [|h hs] eqn:Hm.
  - right. intros e He. rewrite outline_section_loop in He.
    cbn [app] in He. apply in_map_iff in He.
    destruct He as [[i p] [<- _]]. unfold section_entry.
    apply startswith_app_prefix.
  - left. intros e He. rewrite <- Hm in He.
    apply in_map_iff in He. destruct He as [line [<- Hline]].
    apply filter_In in Hline. destruct Hline as [_ Hhash].
    unfold starts_with_hash in Hhash.
    destruct line as [|c t]; [discriminate|].
    cbn [startswith lit] in Hhash.
    apply andb_prop in Hhash. destruct Hhash as [Hc _].
    apply N.eqb_eq in Hc. subst c.
    destruct (@strip_by_keeps_head isspace (N_of_ascii "#") t eq_refl)
      as [rest Hrest].
    unfold strip. rewrite Hrest. now destruct rest.
Qed.

(* ------------------------------------------------------------------ *)
(** ** Further properties of the batch *)

(** X14: the bibliography numbers a source by the position of its URL in
    the batch, failed sources included in the count; and as soon as one
    source has a canonical URL the study guide ends with the references. *)
Theorem batch_bibliography_numbering (E : Collaborators) (urls : list str)
  (length : Tier) (i : nat) (url : str) (res : FetchResult) (u : str) :
  nth_error urls i = Some url ->
  _extract_url E url = inr res ->
  canonical_url (meta res) = Some u ->
  u <> [] ->
  let sections := fst (batch_collect (gather E urls) length) in
  let bibliography := snd (batch_collect (gather E urls) length) in
  In (lit "[" ++ str_of_nat (i + 1) ++ lit "] " ++ source_title (i + 1) res
      ++ lit " " ++ [EM_DASH] ++ lit " " ++ u) bibliography
  /\ batch_summarize E urls length
     = PREFACE ++ [NL; NL] ++ lit "# Study Guide" ++ [NL; NL]
       ++ join [NL; NL] sections
       ++ [NL; NL] ++ lit "## References" ++ [NL; NL]
       ++ join [NL] bibliography.
Proof.
  intros Hi Hres Hc Hu sections bibliography.
  assert (Hin : In (bibliography_line (i + 1) res u) bibliography).
  { unfold bibliography. rewrite batch_collect_eq. cbn [snd].
    apply in_flat_map. exists (i + 1, inr res). split.
    - apply (@nth_error_In _ _ i). rewrite nth_error_enumerate.
      unfold gather. rewrite nth_error_map, Hi. cbn [option_map].
      now rewrite Hres, (Nat.add_comm 1 i).
    - unfold bibliography_of. cbn [fst snd]. rewrite Hc.
      destruct u; [congruence|]. now left. }
  split; [exact Hin|].
  unfold batch_summarize.
  destruct (batch_collect (gather E urls) length) as [s b].
  cbn [fst snd] in sections, bibliography. subst sections bibliography.
  unfold render_study_guide.
  destruct b as [|b0 b]; [contradiction|reflexivity].
Qed.

Lemma batch_bibliography_numbering_witness :
  snd (batch_collect (gather article_world [lit "http://a"]) short)
  = [lit "[1] T " ++ [EM_DASH] ++ lit " http://a/"]
  /\ In (lit "[1] T " ++ [EM_DASH] ++ lit " http://a/")
       (snd (batch_collect (gather article_world [lit "http://a"]) short)).
Proof.
  split; [reflexivity|].
  apply (@batch_bibliography_numbering article_world [lit "http://a"] short
           0 (lit "http://a") article_result (lit "http://a/"));
    try reflexivity.
  discriminate.
Defined.

Lemma join_nth (sep : str) (l : list str) (i : nat) (x : str) :
  nth_error l i = Some x ->
  exists before after, join sep l = before ++ x ++ after.
Proof.
  revert i. induction l as [|y t IH]; intros i H.
  - destruct i; discriminate.
  - destruct i as [|i].
    + injection H as ->. exists []. cbn [join app].
      destruct t; [exists []; now rewrite app_nil_r|eexists; reflexivity].
    + cbn [nth_error] in H. destruct (IH i H) as [before [after Hj]].
      cbn [join]. destruct t as [|z t]; [destruct i; discriminate|].
      rewrite Hj. exists (y ++ sep ++ before), after.
      now rewrite <- !app_assoc.
Qed.

(** X15: a URL answered with a status of 400 or more shows in the study
    guide that [batch_summarize] returns, after the heading, as the
    section numbered by its position, with the extractor's message that
    names the URL and the status. *)
Theorem batch_status_error_section (E : Collaborators) (urls : list str)
  (length : Tier) (i : nat) (url : str) (resp : Response) :
  nth_error urls i = Some url ->
  client_get E url = Returns resp ->
  (400 <= status_code resp)%N ->
  exists before after,
    batch_summarize E urls length
    = PREFACE ++ [NL; NL] ++ lit "# Study Guide" ++ [NL; NL]
      ++ before
      ++ (lit "## Source " ++ str_of_nat (i + 1) ++ [NL; NL]
          ++ lit "- Error: Failed to fetch " ++ url ++ lit " - status "
          ++ str_of_N (status_code resp))
      ++ after.
Proof.
  intros Hi Hget Hs.
  assert (Hsec : nth_error (map (section_of length)
                              (enumerate 1 (gather E urls))) i
                 = Some (lit "## Source " ++ str_of_nat (i + 1) ++ [NL; NL]
                         ++ lit "- Error: Failed to fetch " ++ url
                         ++ lit " - status "
                         ++ str_of_N (status_code resp))).
  { rewrite nth_error_map, nth_error_enumerate. unfold gather.
    rewrite nth_error_map, Hi. cbn [option_map].
    unfold section_of. cbn [fst snd]. unfold _extract_url. rewrite Hget.
    apply N.leb_le in Hs. rewrite Hs. unfold error_section.
    cbn [exception_str message]. rewrite (Nat.add_comm 1 i). reflexivity. }
  destruct (@join_nth [NL; NL] _ i _ Hsec) as [before [after Hj]].
  unfold batch_summarize. rewrite batch_collect_eq.
  unfold render_study_guide. rewrite Hj.
  exists before. eexists. rewrite <- !app_assoc. reflexivity.
Qed.

Lemma batch_status_error_section_witness :
  exists before after,
    batch_summarize not_found_world [lit "http://a/missing"] medium
    = PREFACE ++ [NL; NL] ++ lit "# Study Guide" ++ [NL; NL]
      ++ before
      ++ (lit "## Source 1" ++ [NL; NL]
          ++ lit "- Error: Failed to fetch http://a/missing - status 404")
      ++ after.
Proof.
  apply (@batch_status_error_section not_found_world
           [lit "http://a/missing"] medium 0 (lit "http://a/missing")
           not_found_response);
    try reflexivity.
  vm_compute. discriminate.
Defined.

(* ------------------------------------------------------------------ *)
(** ** The single-URL tools *)

Lemma extract_links_facts (E : Collaborators) (url : str) (res : FetchResult) :
  _extract_url E url = inr res ->
  NoDup (links res)
  /\ forall l, In l (links res) -> startswith l (lit "http") = true.
Proof.
  intros Hres. apply extract_url_success in Hres.
  destruct Hres as [resp [_ [_ [_ [Hl _]]]]]. rewrite Hl.
  unfold harvest_links.
  destruct (find_all_a_href E (resp_text resp)) as [anchors|].
  - fold (collected_hrefs anchors). split.
    + apply dict_fromkeys_NoDup.
    + intros l Hin. rewrite dict_fromkeys_in, collected_hrefs_in in Hin.
      apply Hin.
  - split; [constructor|contradiction].
Qed.

Lemma notes_header_items (E : Collaborators) (url : str)
  (res : FetchResult) (resp : Response) :
  _extract_url E url = inr res ->
  client_get E url = Returns resp ->
  resp_url resp <> [] ->
  truthy_items (notes_header (meta res))
  = [match opt_line (lit "# ") (title (meta res)) with
     | Some l => l
     | None => lit "# Page Notes"
     end]
    ++ line_of (opt_line (lit "By: ") (byline (meta res)))
    ++ line_of (opt_line (lit "Published: ") (published_at (meta res)))
    ++ [lit "Canonical: " ++ resp_url resp;
        lit "Estimated reading time: "
        ++ str_of_N (reading_time (markdown res)) ++ lit " min"].
Proof.
  intros Hres Hget Hurl. apply extract_url_success in Hres.
  destruct Hres as [resp' [Hget' [Hc [Hr _]]]].
  rewrite Hget in Hget'. injection Hget' as <-.
  unfold notes_header. rewrite Hc, Hr.
  assert (Hn : (reading_time (markdown res) =? 0)%N = false).
  { apply N.eqb_neq. unfold reading_time. cbv zeta. lia. }
  rewrite Hn.
  destruct (resp_url resp) as [|c0 u] eqn:Hu; [congruence|].
  unfold truthy_items, opt_line.
  destruct (title (meta res)) as [[|c1 t]|];
    destruct (byline (meta res)) as [[|c2 b]|];
    destruct (published_at (meta res)) as [[|c3 p]|];
    reflexivity.
Qed.

(** X17: the notes [fetch_notes] returns for a page are the instruction,
    the header, the markdown body under ["## Extracted Content"] and the
    links under ["## Links"].  The header starts with the title line
    (["# Page Notes"] without a title), has the byline and the publication
    date only when the page has them, and always ends with the canonical
    URL and the reading time; no empty line is kept. *)
Theorem fetch_notes_header (E : Collaborators) (url : str)
  (res : FetchResult) (resp : Response) :
  _extract_url E url = inr res ->
  client_get E url = Returns resp ->
  resp_url resp <> [] ->
  fetch_notes E url
  = inr (lit "Prepare the well structured notes that are easy to understandable from the below content."
         ++ lit "Ensure concepts are clear and understandable, explain each concepts with ease."
         ++ [NL; NL]
         ++ join [NL]
              ([match opt_line (lit "# ") (title (meta res)) with
                | Some l => l
                | None => lit "# Page Notes"
                end]
               ++ line_of (opt_line (lit "By: ") (byline (meta res)))
               ++ line_of (opt_line (lit "Published: ")
                             (published_at (meta res)))
               ++ [lit "Canonical: " ++ resp_url resp;
                   lit "Estimated reading time: "
                   ++ str_of_N (reading_time (markdown res))
                   ++ lit " min"])
         ++ [NL; NL]
         ++ lit "## Extracted Content" ++ [NL; NL] ++ markdown res
         ++ [NL; NL]
         ++ lit "## Links" ++ [NL; NL]
         ++ join [NL] (map (fun l => lit "- " ++ l) (firstn 20 (links res)))).
Proof.
  intros Hres Hget Hurl. unfold fetch_notes. rewrite Hres.
  now rewrite (@notes_header_items E url res resp Hres Hget Hurl).
Qed.

Lemma fetch_notes_header_witness :
  fetch_notes article_world (lit "http://a")
  = inr (lit "Prepare the well structured notes that are easy to understandable from the below content."
         ++ lit "Ensure concepts are clear and understandable, explain each concepts with ease."
         ++ [NL; NL]
         ++ join [NL] [lit "# T"; lit "Canonical: http://a/";
                       lit "Estimated reading time: 1 min"]
         ++ [NL; NL]
         ++ lit "## Extracted Content" ++ [NL; NL] ++ lit "<h1>T</h1>"
         ++ [NL; NL]
         ++ lit "## Links" ++ [NL; NL]).
Proof.
  rewrite (@fetch_notes_header article_world (lit "http://a") article_result
             plain_page_response eq_refl eq_refl); [reflexivity|].
  discriminate.
Defined.

(** X18: the notes of a page end with its links, of which at most the
    first 20 are shown, each once. *)
Theorem fetch_notes_links (E : Collaborators) (url : str) (res : FetchResult) :
  _extract_url E url = inr res ->
  let shown := firstn 20 (links res) in
  List.length shown <= 20
  /\ NoDup shown
  /\ (forall l, In l shown -> startswith l (lit "http") = true)
  /\ exists head,
       fetch_notes E url
       = inr (head ++ lit "## Links" ++ [NL; NL]
              ++ join [NL] (map (fun l => lit "- " ++ l) shown)).
Proof.
  intros Hres shown.
  destruct (extract_links_facts _ _ Hres) as [Hnd Hhttp].
  split; [apply firstn_le_length|].
  split; [now apply NoDup_firstn|].
  split; [intros l Hl; apply Hhttp; now apply In_firstn in Hl|].
  unfold fetch_notes. rewrite Hres. unfold render_links. fold shown.
  eexists. rewrite !app_assoc. reflexivity.
Qed.

Lemma fetch_notes_links_witness :
  firstn 20 (links linked_page_result) = [lit "http://b/"]
  /\ NoDup (firstn 20 (links linked_page_result)).
Proof.
  split; [reflexivity|].
  apply (@fetch_notes_links (page_world linked_page_anchors)
           (lit "http://a") linked_page_result eq_refl).
Defined.

(* ------------------------------------------------------------------ *)
(** ** A response without a content type *)

(** X20: a response with a status below 400 and no content-type header is
    refused like a non-HTML one, the observed type being empty. *)
Theorem extract_url_missing_content_type (E : Collaborators) (url : str)
  (resp : Response) :
  client_get E url = Returns resp ->
  (status_code resp < 400)%N ->
  resp_content_type resp = None ->
  _extract_url E url
  = inl (McpError
           (mkErrorData INVALID_PARAMS (lit "Unsupported content-type: "))).
Proof.
  intros Hget Hs Hc. unfold _extract_url. rewrite Hget.
  apply N.leb_gt in Hs. rewrite Hs, Hc. reflexivity.
Qed.

Lemma extract_url_missing_content_type_witness :
  _extract_url headerless_world (lit "http://a")
  = inl (McpError
           (mkErrorData INVALID_PARAMS (lit "Unsupported content-type: "))).
Proof.
  apply (@extract_url_missing_content_type headerless_world
           (lit "http://a") headerless_response);
    reflexivity.
Defined.
